(** * Research Tutor front end: the stores and the API gateway

    A shallow embedding of [src/store/index.ts] (the Zustand stores) and of
    the [ApiService] class (the axios gateway), with the data records of
    [src/types/index.ts].

    Conventions of the embedding:
    - a TypeScript interface is a record, kept in a module of its own so
      that the fields keep their names ([User.id], [Chat.id], ...); an
      optional field [f?: T] is an [option T];
    - the browser and the network are explicit: [Env] holds the
      [localStorage] entries the code touches, [window.location.href] and
      the log of requests sent; what the server answers to a request is an
      argument of the action that awaits it (a [Reply]);
    - an [async] function returns the world it leaves together with the
      settlement of its promise (an [Outcome]): [Resolved v] or
      [Rejected e];
    - for [fetchChat] and [sendMessage] the part before the [await] and
      the part after it are separate functions ([_begin], [_settle] or
      [_resume]), so that what runs between them can be varied. *)

From Stdlib Require Import String List Bool Arith ZArith Lia.
From Stdlib Require QArith_base.
Import ListNotations.
Local Open Scope string_scope.
Local Open Scope list_scope.

(** ** JavaScript truthiness of the values the code tests *)

(** [!!s] for a string: only the empty string is falsy. *)
Definition truthy_string (s : string) : bool :=
  match s with
  | EmptyString => false
  | String _ _ => true
  end.

(** [!!v] for [v : T | null | undefined] where [T] is an object type. *)
Definition truthy_object {A : Type} (v : option A) : bool :=
  match v with
  | Some _ => true
  | None => false
  end.

(** [!!v] for [v : string | null | undefined]. *)
Definition truthy_opt_string (v : option string) : bool :=
  match v with
  | Some s => truthy_string s
  | None => false
  end.

(** [a || b] where [a : string | undefined] and [b : string]. *)
Definition or_else (a : option string) (b : string) : string :=
  match a with
  | Some s => if truthy_string s then s else b
  | None => b
  end.

(** Optional chaining [v?.f]. *)
Definition opt_chain {A B : Type} (v : option A) (f : A -> option B)
  : option B :=
  match v with
  | Some a => f a
  | None => None
  end.

Notation "v ?. f" := (opt_chain v f) (at level 41, left associativity).

(** ** Values of a parsed JSON body

    What a response body holds at run time, whatever type the code
    declares for it: a number is taken as a rational. *)
#[warnings="-register-all"]
Inductive Json : Type :=
  | JNull
  | JBool (b : bool)
  | JNumber (q : QArith_base.Q)
  | JString (s : string)
  | JArray (items : list Json)
  | JObject (fields : list (string * Json)).

(** [!!v]: [null], [false], zero and the empty string are falsy, every
    array and object is truthy. *)
Definition truthy (v : Json) : bool :=
  match v with
  | JNull => false
  | JBool b => b
  | JNumber q => negb (Z.eqb (QArith_base.Qnum q) 0)
  | JString s => truthy_string s
  | JArray _ | JObject _ => true
  end.


(** The value under a key among the fields of an object. *)
Fixpoint lookup (key : string) (fields : list (string * Json))
  : option Json :=
  match fields with
  | [] => None
  | (k, v) :: rest => if String.eqb k key then Some v else lookup key rest
  end.

(** [v?.key] for a value that may be absent: [undefined] unless [v] is an
    object that has the key (a string, number, boolean or array has no
    such property, and [null] is skipped by [?.]). *)
Definition get (v : option Json) (key : string) : option Json :=
  match v with
  | Some (JObject fields) => lookup key fields
  | _ => None
  end.

(** [a || b] where [a] may be any value or [undefined]. *)
Definition or_default (a : option Json) (b : Json) : Json :=
  match a with
  | Some v => if truthy v then v else b
  | None => b
  end.

(** ** Data records ([src/types/index.ts]) *)

Module User.
Record t : Type := mk {
  id : string;
  email : string;
  username : string;
  full_name : option string;
  institution : option string;
  is_active : bool;
  created_at : string
}.
End User.

Module UserLogin.
Record t : Type := mk {
  email : string;
  password : string
}.
End UserLogin.

Module AuthTokens.
Record t : Type := mk {
  access_token : string;
  token_type : string
}.
End AuthTokens.

Module Chat.
Record t : Type := mk {
  id : string;
  user_id : string;
  title : string;
  created_at : string;
  updated_at : string;
  message_count : option nat
}.
End Chat.

(** Numbers that the client only carries (scores, times, sizes) are
    integers here; no code of the stores inspects them. *)
Module Source.
Record t : Type := mk {
  document_id : string;
  document_name : string;
  chunk_text : string;
  similarity_score : Z;
  page_number : option nat
}.
End Source.

Inductive Role : Type := user | assistant | system.

Module Metadata.
Record t : Type := mk {
  sources : option (list Source.t)
}.
End Metadata.

Module Message.
Record t : Type := mk {
  id : string;
  chat_id : string;
  role : Role;
  content : string;
  metadata : option Metadata.t;
  created_at : string
}.
End Message.

(** [ChatWithMessages extends Chat]: the chat's own fields and its
    transcript. *)
Module ChatWithMessages.
Record t : Type := mk {
  chat : Chat.t;
  messages : list Message.t
}.
End ChatWithMessages.

Module Document.
Record t : Type := mk {
  id : string;
  user_id : string;
  filename : string;
  original_filename : string;
  file_type : string;
  file_size : Z;
  title : option string;
  description : option string;
  category : option string;
  processed : bool;
  processing_error : option string;
  created_at : string;
  updated_at : string
}.
End Document.

Module RAGQuery.
Record t : Type := mk {
  query : string;
  chat_id : option string;
  document_ids : option (list string);
  top_k : option nat
}.
End RAGQuery.

Module RAGResponse.
Record t : Type := mk {
  answer : string;
  sources : list Source.t;
  message_id : string;
  processing_time : Z
}.
End RAGResponse.

Module ChatListResponse.
Record t : Type := mk {
  chats : list Chat.t;
  total : nat
}.
End ChatListResponse.

Module DocumentListResponse.
Record t : Type := mk {
  documents : list Document.t;
  total : nat
}.
End DocumentListResponse.

(** ** Errors *)

(** The response of a failed request. [handleError] declares the body as
    [{ detail: string }] by a cast that nothing checks, so the body is
    kept as the value it is; [data] is absent when there is none. *)
Module AxiosResponse.
Record t : Type := mk {
  status : nat;
  data : option Json
}.
End AxiosResponse.

(** An [AxiosError]: [response] is absent when no answer was received
    (network failure, timeout). *)
Module AxiosError.
Record t : Type := mk {
  response : option AxiosResponse.t
}.
End AxiosError.

(** What a [catch (error)] clause can receive ([error: unknown]): an axios
    error, an [Error] object made by [new Error(message)], or any other
    thrown value, of which only a printed form is kept. *)
Inductive ErrorValue : Type :=
  | AxiosErr (e : AxiosError.t)
  | JsError (message : string)
  | JsValue (printed : string).

(** The detail a transport error carries, if any. *)
Definition carried_detail (e : AxiosError.t) : option Json :=
  match AxiosError.response e with
  | Some r =>
      match AxiosResponse.data r with
      | Some (JObject fields) => lookup "detail" fields
      | _ => None
      end
  | None => None
  end.


(** The settlement of a promise. *)
Inductive Outcome (A : Type) : Type :=
  | Resolved (value : A)
  | Rejected (error : ErrorValue).
Arguments Resolved {A} value.
Arguments Rejected {A} error.

(** What the server does with a request: an answer with a body of the
    expected type, or a failure that axios turns into an [AxiosError]. *)
Inductive Reply (A : Type) : Type :=
  | Ok (data : A)
  | Err (e : AxiosError.t).
Arguments Ok {A} data.
Arguments Err {A} e.

(** ** The API gateway ([ApiService]) *)

Module Api.

(** The requests the stores cause. *)
Inductive Request : Type :=
  | POST_auth_login (credentials : UserLogin.t)
  | GET_auth_me
  | GET_chats (skip limit : nat)
  | POST_chats (title : string)
  | GET_chat (chatId : string)
  | DELETE_chat (chatId : string)
  | POST_chat_messages (chatId : string) (query : RAGQuery.t)
  | GET_documents (skip limit : nat) (category : option string)
  | POST_documents_upload (file : string)
      (title description category : option string)
  | DELETE_document (documentId : string).

(** One entry of the request log: the request, the [Authorization]
    header the request interceptor attached, and whether it succeeded. *)
Record Exchange : Type := mkExchange {
  request : Request;
  authorization : option string;
  succeeded : bool
}.

(** The part of the browser the code reads and writes.
    [access_token] is [localStorage['access_token']], [auth_storage] is
    what the persist middleware keeps under ['auth-storage'] (the [user]
    field only, see [partialize]), [href] is [window.location.href] and
    [log] lists the requests sent, the most recent first. *)
Record Env : Type := mkEnv {
  access_token : option string;
  auth_storage : option (option User.t);
  href : string;
  log : list Exchange
}.

Definition getToken (env : Env) : option string := access_token env.

Definition setToken (env : Env) (token : string) : Env :=
  {| access_token := Some token;
     auth_storage := auth_storage env;
     href := href env;
     log := log env |}.

Definition clearToken (env : Env) : Env :=
  {| access_token := None;
     auth_storage := auth_storage env;
     href := href env;
     log := log env |}.

Definition navigate (env : Env) (url : string) : Env :=
  {| access_token := access_token env;
     auth_storage := auth_storage env;
     href := url;
     log := log env |}.

Definition record (env : Env) (x : Exchange) : Env :=
  {| access_token := access_token env;
     auth_storage := auth_storage env;
     href := href env;
     log := x :: log env |}.

(** The request interceptor: the header is attached when the token is
    truthy. *)
Definition bearer (env : Env) : option string :=
  match getToken env with
  | Some token =>
      if truthy_string token then Some ("Bearer " ++ token)%string else None
  | None => None
  end.

(** [error.response?.status === 401]. *)
Definition is_unauthorized (e : AxiosError.t) : bool :=
  match AxiosError.response e with
  | Some r => Nat.eqb (AxiosResponse.status r) 401
  | None => false
  end.

(** The response interceptor's error branch. *)
Definition on_response_error (env : Env) (e : AxiosError.t) : Env :=
  if is_unauthorized e
  then navigate (clearToken env) "/login"
  else env.

(** [await this.client.<verb>(...)]: the request goes out with the
    header of the moment, the server's [reply] comes back through the
    response interceptor. *)
Definition send {A : Type} (env : Env) (req : Request) (reply : Reply A)
  : Env * Outcome A :=
  let auth := bearer env in
  match reply with
  | Ok data => (record env (mkExchange req auth true), Resolved data)
  | Err e =>
      (on_response_error (record env (mkExchange req auth false)) e,
       Rejected (AxiosErr e))
  end.


Definition login (env : Env) (credentials : UserLogin.t)
    (reply : Reply AuthTokens.t) : Env * Outcome AuthTokens.t :=
  match send env (POST_auth_login credentials) reply with
  | (env1, Resolved data) =>
      (setToken env1 (AuthTokens.access_token data), Resolved data)
  | (env1, Rejected e) => (env1, Rejected e)
  end.

Definition logout (env : Env) : Env * Outcome unit :=
  (clearToken env, Resolved tt).

Definition getCurrentUser (env : Env) (reply : Reply User.t)
  : Env * Outcome User.t :=
  send env GET_auth_me reply.

(** [listChats(skip = 0, limit = 50)]. *)
Definition listChats (env : Env) (skip limit : option nat)
    (reply : Reply ChatListResponse.t) : Env * Outcome ChatListResponse.t :=
  send env
    (GET_chats (match skip with Some n => n | None => 0 end)
               (match limit with Some n => n | None => 50 end))
    reply.

(** [createChat(title?)] posts [title || 'New Chat']. *)
Definition createChat (env : Env) (title : option string)
    (reply : Reply Chat.t) : Env * Outcome Chat.t :=
  send env (POST_chats (or_else title "New Chat")) reply.

Definition getChat (env : Env) (chatId : string)
    (reply : Reply ChatWithMessages.t) : Env * Outcome ChatWithMessages.t :=
  send env (GET_chat chatId) reply.

Definition deleteChat (env : Env) (chatId : string) (reply : Reply unit)
  : Env * Outcome unit :=
  send env (DELETE_chat chatId) reply.

Definition sendMessage (env : Env) (chatId : string) (query : RAGQuery.t)
    (reply : Reply RAGResponse.t) : Env * Outcome RAGResponse.t :=
  send env (POST_chat_messages chatId query) reply.

(** [listDocuments(skip = 0, limit = 50, category?)]. *)
Definition listDocuments (env : Env) (skip limit : option nat)
    (category : option string) (reply : Reply DocumentListResponse.t)
  : Env * Outcome DocumentListResponse.t :=
  send env
    (GET_documents (match skip with Some n => n | None => 0 end)
                   (match limit with Some n => n | None => 50 end)
                   category)
    reply.

(** [uploadDocument]: a metadata field goes into the query string when
    it is truthy. *)
Definition uploadDocument (env : Env) (file : string)
    (title description category : option string)
    (reply : Reply Document.t) : Env * Outcome Document.t :=
  let keep (v : option string) :=
    if truthy_opt_string v then v else None in
  send env
    (POST_documents_upload file (keep title) (keep description)
       (keep category))
    reply.

Definition deleteDocument (env : Env) (documentId : string)
    (reply : Reply unit) : Env * Outcome unit :=
  send env (DELETE_document documentId) reply.

(** [isAuthenticated(): return !!this.getToken()]. *)
Definition isAuthenticated (env : Env) : bool :=
  truthy_opt_string (getToken env).

(** [handleError(error: unknown): string]; the first branch is the one
    taken when [axios.isAxiosError(error)] holds. The declared result is a
    string; what is returned is whatever [detail || 'An error occurred']
    evaluates to. *)
Definition handleError (error : ErrorValue) : Json :=
  match error with
  | AxiosErr axiosError =>
      or_default
        (get (AxiosError.response axiosError ?. AxiosResponse.data) "detail")
        (JString "An error occurred")
  | JsError _ | JsValue _ => JString "An unexpected error occurred"
  end.

End Api.

(** A store together with the environment its actions act on. *)
Record World (S : Type) : Type := mkWorld {
  env : Api.Env;
  state : S
}.
Arguments mkWorld {S} env state.
Arguments env {S} w.
Arguments state {S} w.

Definition with_env {S : Type} (w : World S) (e : Api.Env) : World S :=
  mkWorld e (state w).

(** ** Auth store ([useAuthStore]) *)

Module Auth.

Record State : Type := mkState {
  user : option User.t;
  isAuthenticated : bool;
  isLoading : bool
}.

Definition initial : State :=
  {| user := None; isAuthenticated := false; isLoading := false |}.

(** [partialize: (state) => ({ user: state.user })]. *)
Definition partialize (s : State) : option User.t := user s.

(** What the persist middleware does when the store is created: the
    stored partial state is laid over the initial state. *)
Definition rehydrate (stored : option (option User.t)) : State :=
  match stored with
  | Some u =>
      {| user := u;
         isAuthenticated := isAuthenticated initial;
         isLoading := isLoading initial |}
  | None => initial
  end.

(** The world when the page has loaded: the two [localStorage] entries
    are those of the previous visit, no request has been sent yet. *)
Definition startup (token : option string) (stored : option (option User.t))
    (url : string) : World State :=
  mkWorld (Api.mkEnv token stored url []) (rehydrate stored).

(** [set] of the persisted store: the update is applied and the
    partialized state is written under ['auth-storage']. *)
Definition set (w : World State) (update : State -> State) : World State :=
  let s := update (state w) in
  mkWorld
    {| Api.access_token := Api.access_token (env w);
       Api.auth_storage := Some (partialize s);
       Api.href := Api.href (env w);
       Api.log := Api.log (env w) |}
    s.

(** [setUser: (user) => set({ user, isAuthenticated: !!user })]. *)
Definition setUser (w : World State) (u : option User.t) : World State :=
  set w (fun s =>
    {| user := u;
       isAuthenticated := truthy_object u;
       isLoading := isLoading s |}).

Definition set_isLoading (b : bool) (s : State) : State :=
  {| user := user s; isAuthenticated := isAuthenticated s; isLoading := b |}.

Definition login (w : World State) (email password : string)
    (reply_login : Reply AuthTokens.t) (reply_me : Reply User.t)
  : World State * Outcome unit :=
  let w1 := set w (set_isLoading true) in
  match Api.login (env w1) (UserLogin.mk email password) reply_login with
  | (env2, Resolved _) =>
      match Api.getCurrentUser env2 reply_me with
      | (env3, Resolved u) =>
          (set (with_env w1 env3) (fun _ =>
             {| user := Some u;
                isAuthenticated := true;
                isLoading := false |}),
           Resolved tt)
      | (env3, Rejected error) =>
          (set (with_env w1 env3) (set_isLoading false), Rejected error)
      end
  | (env2, Rejected error) =>
      (set (with_env w1 env2) (set_isLoading false), Rejected error)
  end.

Definition logout (w : World State) : World State * Outcome unit :=
  let (env1, _) := Api.logout (env w) in
  (set (with_env w env1) (fun s =>
     {| user := None; isAuthenticated := false; isLoading := isLoading s |}),
   Resolved tt).

Definition fetchCurrentUser (w : World State) (reply_me : Reply User.t)
  : World State * Outcome unit :=
  if negb (Api.isAuthenticated (env w)) then
    (set w (fun s =>
       {| user := None; isAuthenticated := false; isLoading := isLoading s |}),
     Resolved tt)
  else
    let w1 := set w (set_isLoading true) in
    match Api.getCurrentUser (env w1) reply_me with
    | (env2, Resolved u) =>
        (set (with_env w1 env2) (fun _ =>
           {| user := Some u; isAuthenticated := true; isLoading := false |}),
         Resolved tt)
    | (env2, Rejected _) =>
        (set (with_env w1 env2) (fun _ =>
           {| user := None; isAuthenticated := false; isLoading := false |}),
         Resolved tt)
    end.

(** *** The session as the data model describes it *)

Definition is_user_fetch (x : Api.Exchange) : bool :=
  match Api.request x with
  | Api.GET_auth_me => true
  | _ => false
  end.

(** Whether the most recent fetch of the current user succeeded; [false]
    when none was made since the page loaded. *)
Definition last_user_fetch_succeeded (e : Api.Env) : bool :=
  match find is_user_fetch (Api.log e) with
  | Some x => Api.succeeded x
  | None => false
  end.

(** The derived session of the data model: a bearer token is in storage
    and the last fetch of the user succeeded. The token counts as present
    when the gateway itself sees one ([Api.isAuthenticated]). *)
Definition session_valid (e : Api.Env) : bool :=
  Api.isAuthenticated e && last_user_fetch_succeeded e.

(** The flag of the store agrees with the derived session. *)
Definition flag_matches_session (w : World State) : Prop :=
  isAuthenticated (state w) = true <-> session_valid (env w) = true.

End Auth.

(** ** Chat store ([useChatStore]) *)

(** [v?.id === x] for an object [v] that may be [null]: [undefined] is
    equal to no string. *)
Definition opt_id_is {A : Type} (id_of : A -> string) (v : option A)
    (x : string) : bool :=
  match option_map id_of v with
  | Some i => String.eqb i x
  | None => false
  end.

Module ChatStore.

Record State : Type := mkState {
  chats : list Chat.t;
  currentChat : option Chat.t;
  messages : list Message.t;
  isLoading : bool;
  error : option Json
}.

Definition initial : State :=
  {| chats := [];
     currentChat := None;
     messages := [];
     isLoading := false;
     error := None |}.

Definition set (w : World State) (update : State -> State) : World State :=
  mkWorld (env w) (update (state w)).

(** The patches that several actions share. *)

(** [{ isLoading: true, error: null }]. *)
Definition loading (s : State) : State :=
  {| chats := chats s;
     currentChat := currentChat s;
     messages := messages s;
     isLoading := true;
     error := None |}.

(** [{ error: apiService.handleError(error), isLoading: false }]. *)
Definition failed (e : ErrorValue) (s : State) : State :=
  {| chats := chats s;
     currentChat := currentChat s;
     messages := messages s;
     isLoading := false;
     error := Some (Api.handleError e) |}.

(** [{ isLoading: false }]. *)
Definition loaded (s : State) : State :=
  {| chats := chats s;
     currentChat := currentChat s;
     messages := messages s;
     isLoading := false;
     error := error s |}.

Definition setChats (w : World State) (cs : list Chat.t) : World State :=
  set w (fun s =>
    {| chats := cs;
       currentChat := currentChat s;
       messages := messages s;
       isLoading := isLoading s;
       error := error s |}).

Definition setCurrentChat (w : World State) (c : option Chat.t)
  : World State :=
  set w (fun s =>
    {| chats := chats s;
       currentChat := c;
       messages := messages s;
       isLoading := isLoading s;
       error := error s |}).

Definition setMessages (w : World State) (ms : list Message.t)
  : World State :=
  set w (fun s =>
    {| chats := chats s;
       currentChat := currentChat s;
       messages := ms;
       isLoading := isLoading s;
       error := error s |}).

(** [addMessage: set((state) => ({ messages: [...state.messages, message] }))]. *)
Definition addMessage (w : World State) (message : Message.t) : World State :=
  set w (fun s =>
    {| chats := chats s;
       currentChat := currentChat s;
       messages := messages s ++ [message];
       isLoading := isLoading s;
       error := error s |}).

(** *** fetchChats *)

Definition fetchChats (w : World State) (reply : Reply ChatListResponse.t)
  : World State * Outcome unit :=
  let w1 := set w loading in
  match Api.listChats (env w1) None None reply with
  | (env2, Resolved response) =>
      (set (with_env w1 env2) (fun s =>
         {| chats := ChatListResponse.chats response;
            currentChat := currentChat s;
            messages := messages s;
            isLoading := false;
            error := error s |}),
       Resolved tt)
  | (env2, Rejected e) => (set (with_env w1 env2) (failed e), Resolved tt)
  end.

(** *** fetchChat *)

Definition fetchChat_begin (w : World State) : World State :=
  set w loading.

(** The [try] block after the [await], and the [catch] block. *)
Definition fetchChat_settle (w : World State)
    (r : Outcome ChatWithMessages.t) : World State :=
  match r with
  | Resolved chat =>
      set w (fun s =>
        {| chats := chats s;
           currentChat := Some (ChatWithMessages.chat chat);
           messages := ChatWithMessages.messages chat;
           isLoading := false;
           error := error s |})
  | Rejected e => set w (failed e)
  end.

(** The exchange with the server and what follows it. *)
Definition fetchChat_resume (w : World State) (chatId : string)
    (reply : Reply ChatWithMessages.t) : World State :=
  let (env1, r) := Api.getChat (env w) chatId reply in
  fetchChat_settle (with_env w env1) r.

Definition fetchChat (w : World State) (chatId : string)
    (reply : Reply ChatWithMessages.t) : World State * Outcome unit :=
  (fetchChat_resume (fetchChat_begin w) chatId reply, Resolved tt).

(** *** createNewChat *)

Definition createNewChat (w : World State) (title : option string)
    (reply : Reply Chat.t) : World State * Outcome Chat.t :=
  let w1 := set w loading in
  match Api.createChat (env w1) title reply with
  | (env2, Resolved chat) =>
      (set (with_env w1 env2) (fun s =>
         {| chats := chat :: chats s;
            currentChat := Some chat;
            messages := [];
            isLoading := false;
            error := error s |}),
       Resolved chat)
  | (env2, Rejected e) => (set (with_env w1 env2) (failed e), Rejected e)
  end.

(** *** deleteChat *)

(** The update applied when the server has deleted the chat. *)
Definition deleteChat_update (chatId : string) (s : State) : State :=
  {| chats := filter (fun c => negb (String.eqb (Chat.id c) chatId)) (chats s);
     currentChat :=
       if opt_id_is Chat.id (currentChat s) chatId
       then None else currentChat s;
     messages :=
       if opt_id_is Chat.id (currentChat s) chatId
       then [] else messages s;
     isLoading := false;
     error := error s |}.

Definition deleteChat (w : World State) (chatId : string)
    (reply : Reply unit) : World State * Outcome unit :=
  let w1 := set w loading in
  match Api.deleteChat (env w1) chatId reply with
  | (env2, Resolved _) =>
      (set (with_env w1 env2) (deleteChat_update chatId), Resolved tt)
  | (env2, Rejected e) => (set (with_env w1 env2) (failed e), Resolved tt)
  end.

(** *** sendMessage *)

(** What the action takes from its surroundings: [crypto.randomUUID()]
    and the two readings of the clock ([new Date().toISOString()]). *)
Record Ambient : Type := mkAmbient {
  randomUUID : string;
  now_sent : string;
  now_answered : string
}.

Definition userMessage (currentChat : Chat.t) (query : string)
    (a : Ambient) : Message.t :=
  {| Message.id := randomUUID a;
     Message.chat_id := Chat.id currentChat;
     Message.role := user;
     Message.content := query;
     Message.metadata := None;
     Message.created_at := now_sent a |}.

Definition assistantMessage (currentChat : Chat.t)
    (response : RAGResponse.t) (a : Ambient) : Message.t :=
  {| Message.id := RAGResponse.message_id response;
     Message.chat_id := Chat.id currentChat;
     Message.role := assistant;
     Message.content := RAGResponse.answer response;
     Message.metadata :=
       Some (Metadata.mk (Some (RAGResponse.sources response)));
     Message.created_at := now_answered a |}.

(** The query posted: [{ query, document_ids: documentIds, top_k: 5 }]. *)
Definition rag_query (query : string) (documentIds : option (list string))
  : RAGQuery.t :=
  {| RAGQuery.query := query;
     RAGQuery.chat_id := None;
     RAGQuery.document_ids := documentIds;
     RAGQuery.top_k := Some 5 |}.

(** Up to the [await], for a current chat that is set: the optimistic
    append, then the loading flag. *)
Definition sendMessage_begin (w : World State) (currentChat : Chat.t)
    (query : string) (a : Ambient) : World State :=
  set (addMessage w (userMessage currentChat query a)) loading.

(** After the [await]: the [try] block's rest, or the [catch] block. *)
Definition sendMessage_settle (w : World State) (currentChat : Chat.t)
    (a : Ambient) (r : Outcome RAGResponse.t) : World State * Outcome unit :=
  match r with
  | Resolved response =>
      (set (addMessage w (assistantMessage currentChat response a)) loaded,
       Resolved tt)
  | Rejected e => (set w (failed e), Rejected e)
  end.

Definition sendMessage (w : World State) (query : string)
    (documentIds : option (list string)) (a : Ambient)
    (reply : Reply RAGResponse.t) : World State * Outcome unit :=
  match currentChat (state w) with
  | None => (w, Rejected (JsError "No active chat"))
  | Some currentChat =>
      let w1 := sendMessage_begin w currentChat query a in
      let (env2, r) :=
        Api.sendMessage (env w1) (Chat.id currentChat)
          (rag_query query documentIds) reply in
      sendMessage_settle (with_env w1 env2) currentChat a r
  end.

(** *** Interleaved fetches of a chat

    Between the call of [fetchChat] and the arrival of the server's
    answer other calls may start and other answers may arrive. An event
    is either; the exchange is logged when it completes. *)
Inductive FetchEvent : Type :=
  | Called (chatId : string)
  | Answered (chatId : string) (reply : Reply ChatWithMessages.t).

Definition fetch_step (w : World State) (ev : FetchEvent) : World State :=
  match ev with
  | Called _ => fetchChat_begin w
  | Answered chatId reply => fetchChat_resume w chatId reply
  end.

Definition fetch_run (w : World State) (evs : list FetchEvent)
  : World State :=
  fold_left fetch_step evs w.

(** The chat of the last answer that was a success, if any. *)
Fixpoint last_fetched (evs : list FetchEvent) (acc : option ChatWithMessages.t)
  : option ChatWithMessages.t :=
  match evs with
  | [] => acc
  | Called _ :: rest => last_fetched rest acc
  | Answered _ (Ok chat) :: rest => last_fetched rest (Some chat)
  | Answered _ (Err _) :: rest => last_fetched rest acc
  end.

(** The current chat and the messages are those of the fetched chat
    [c]. *)
Definition shows (c : ChatWithMessages.t) (s : State) : Prop :=
  currentChat s = Some (ChatWithMessages.chat c)
  /\ messages s = ChatWithMessages.messages c.

(** The current chat and the messages are still those of [s0]. *)
Definition same_view (s0 s : State) : Prop :=
  currentChat s = currentChat s0 /\ messages s = messages s0.

Definition view_after (s0 : State) (last : option ChatWithMessages.t)
    (s : State) : Prop :=
  match last with
  | Some c => shows c s
  | None => same_view s0 s
  end.

End ChatStore.

(** ** Document store ([useDocumentStore]) *)

(** [array.includes(x)] on an array of strings. *)
Definition includes (l : list string) (x : string) : bool :=
  existsb (fun y => String.eqb y x) l.

Module DocumentStore.

Record State : Type := mkState {
  documents : list Document.t;
  selectedDocuments : list string;
  currentDocument : option Document.t;
  isLoading : bool;
  error : option Json
}.

Definition initial : State :=
  {| documents := [];
     selectedDocuments := [];
     currentDocument := None;
     isLoading := false;
     error := None |}.

Definition set (w : World State) (update : State -> State) : World State :=
  mkWorld (env w) (update (state w)).

(** [{ isLoading: true, error: null }]. *)
Definition loading (s : State) : State :=
  {| documents := documents s;
     selectedDocuments := selectedDocuments s;
     currentDocument := currentDocument s;
     isLoading := true;
     error := None |}.

(** [{ error: apiService.handleError(error), isLoading: false }]. *)
Definition failed (e : ErrorValue) (s : State) : State :=
  {| documents := documents s;
     selectedDocuments := selectedDocuments s;
     currentDocument := currentDocument s;
     isLoading := false;
     error := Some (Api.handleError e) |}.

Definition setDocuments (w : World State) (ds : list Document.t)
  : World State :=
  set w (fun s =>
    {| documents := ds;
       selectedDocuments := selectedDocuments s;
       currentDocument := currentDocument s;
       isLoading := isLoading s;
       error := error s |}).

Definition setCurrentDocument (w : World State) (d : option Document.t)
  : World State :=
  set w (fun s =>
    {| documents := documents s;
       selectedDocuments := selectedDocuments s;
       currentDocument := d;
       isLoading := isLoading s;
       error := error s |}).

Definition setSelectedDocuments (w : World State) (documentIds : list string)
  : World State :=
  set w (fun s =>
    {| documents := documents s;
       selectedDocuments := documentIds;
       currentDocument := currentDocument s;
       isLoading := isLoading s;
       error := error s |}).

(** The new selection that [toggleDocumentSelection] computes. *)
Definition toggled (selected : list string) (documentId : string)
  : list string :=
  if includes selected documentId
  then filter (fun id => negb (String.eqb id documentId)) selected
  else selected ++ [documentId].

Definition toggleDocumentSelection (w : World State) (documentId : string)
  : World State :=
  set w (fun s =>
    {| documents := documents s;
       selectedDocuments := toggled (selectedDocuments s) documentId;
       currentDocument := currentDocument s;
       isLoading := isLoading s;
       error := error s |}).

(** [fetchDocuments(category?)] asks for [listDocuments(0, 100, category)]. *)
Definition fetchDocuments (w : World State) (category : option string)
    (reply : Reply DocumentListResponse.t) : World State * Outcome unit :=
  let w1 := set w loading in
  match Api.listDocuments (env w1) (Some 0) (Some 100) category reply with
  | (env2, Resolved response) =>
      (set (with_env w1 env2) (fun s =>
         {| documents := DocumentListResponse.documents response;
            selectedDocuments := selectedDocuments s;
            currentDocument := currentDocument s;
            isLoading := false;
            error := error s |}),
       Resolved tt)
  | (env2, Rejected e) => (set (with_env w1 env2) (failed e), Resolved tt)
  end.

(** [uploadDocument(file, metadata?)]; [metadata?.title] and the like are
    the three optional fields passed on. *)
Definition uploadDocument (w : World State) (file : string)
    (title description category : option string)
    (reply : Reply Document.t) : World State * Outcome unit :=
  let w1 := set w loading in
  match Api.uploadDocument (env w1) file title description category reply with
  | (env2, Resolved document) =>
      (set (with_env w1 env2) (fun s =>
         {| documents := document :: documents s;
            selectedDocuments := selectedDocuments s;
            currentDocument := currentDocument s;
            isLoading := false;
            error := error s |}),
       Resolved tt)
  | (env2, Rejected e) => (set (with_env w1 env2) (failed e), Rejected e)
  end.

(** The update applied when the server has deleted the document. *)
Definition deleteDocument_update (documentId : string) (s : State) : State :=
  {| documents :=
       filter (fun d => negb (String.eqb (Document.id d) documentId))
         (documents s);
     selectedDocuments :=
       filter (fun id => negb (String.eqb id documentId))
         (selectedDocuments s);
     currentDocument :=
       if opt_id_is Document.id (currentDocument s) documentId
       then None else currentDocument s;
     isLoading := false;
     error := error s |}.

Definition deleteDocument (w : World State) (documentId : string)
    (reply : Reply unit) : World State * Outcome unit :=
  let w1 := set w loading in
  match Api.deleteDocument (env w1) documentId reply with
  | (env2, Resolved _) =>
      (set (with_env w1 env2) (deleteDocument_update documentId), Resolved tt)
  | (env2, Rejected e) => (set (with_env w1 env2) (failed e), Resolved tt)
  end.

(** *** Sequences of calls *)

(** Toggling the ids of a list, one call after the other. *)
Definition toggle_all (w : World State) (ids : list string) : World State :=
  fold_left toggleDocumentSelection ids w.

(** The calls that reach the selection or leave it alone, each with the
    answer the server gives to it. *)
Inductive Call : Type :=
  | Toggle (documentId : string)
  | Fetch (category : option string) (reply : Reply DocumentListResponse.t)
  | Delete (documentId : string) (reply : Reply unit).

Definition call (w : World State) (c : Call) : World State :=
  match c with
  | Toggle documentId => toggleDocumentSelection w documentId
  | Fetch category reply => fst (fetchDocuments w category reply)
  | Delete documentId reply => fst (deleteDocument w documentId reply)
  end.

Definition calls (w : World State) (cs : list Call) : World State :=
  fold_left call cs w.

End DocumentStore.

(** * Sample values *)

Module Sample.

Definition alice : User.t :=
  {| User.id := "u1";
     User.email := "a@b.com";
     User.username := "alice";
     User.full_name := None;
     User.institution := None;
     User.is_active := true;
     User.created_at := "2024-01-01T00:00:00Z" |}.

Definition tokens : AuthTokens.t :=
  {| AuthTokens.access_token := "t0k3n"; AuthTokens.token_type := "bearer" |}.

(** A visitor without a token or a stored user opens the page. *)
Definition anonymous : World Auth.State := Auth.startup None None "/".

(** A visitor whose token of an earlier visit is still stored. *)
Definition returning : World Auth.State :=
  Auth.startup (Some "t0k3n") (Some (Some alice)) "/".

(** Server errors: a body with a message, a body whose message is empty,
    and a rejection without a body. *)
Definition error_with (status : nat) (detail : option Json)
  : AxiosError.t :=
  AxiosError.mk
    (Some (AxiosResponse.mk status
             (Some (JObject
                      match detail with
                      | Some d => [("detail", d)]
                      | None => []
                      end)))).

Definition not_found : AxiosError.t :=
  error_with 404 (Some (JString "Chat not found")).

Definition unauthorized : AxiosError.t := error_with 401 None.
Definition network_down : AxiosError.t := AxiosError.mk None.

(** Chats, and a Chat store in which nothing is current, or [notes] is. *)
Definition notes : Chat.t :=
  {| Chat.id := "c1";
     Chat.user_id := "u1";
     Chat.title := "Notes";
     Chat.created_at := "2024-01-01T00:00:00Z";
     Chat.updated_at := "2024-01-01T00:00:00Z";
     Chat.message_count := None |}.

Definition drafts : Chat.t :=
  {| Chat.id := "c2";
     Chat.user_id := "u1";
     Chat.title := "Drafts";
     Chat.created_at := "2024-01-02T00:00:00Z";
     Chat.updated_at := "2024-01-02T00:00:00Z";
     Chat.message_count := Some 1 |}.

Definition signed_in : Api.Env := Api.mkEnv (Some "t0k3n") None "/" [].

Definition hello : Message.t :=
  {| Message.id := "m1";
     Message.chat_id := "c1";
     Message.role := user;
     Message.content := "hello";
     Message.metadata := None;
     Message.created_at := "2024-01-01T00:00:01Z" |}.

Definition idle : World ChatStore.State :=
  mkWorld signed_in ChatStore.initial.

Definition chatting : World ChatStore.State :=
  mkWorld signed_in
    {| ChatStore.chats := [drafts; notes];
       ChatStore.currentChat := Some notes;
       ChatStore.messages := [hello];
       ChatStore.isLoading := false;
       ChatStore.error := None |}.

Definition ambient : ChatStore.Ambient :=
  {| ChatStore.randomUUID := "3b241101-e2bb-4255-8caf-4136c566a962";
     ChatStore.now_sent := "2024-01-03T00:00:00Z";
     ChatStore.now_answered := "2024-01-03T00:00:02Z" |}.

End Sample.

(** * The rest of the stores *)

(** ** UI store ([useUIStore]) *)

Module UI.

Inductive Theme : Type := light | dark.

Record State : Type := mkState {
  sidebarOpen : bool;
  documentPanelOpen : bool;
  theme : Theme
}.

Definition initial : State :=
  {| sidebarOpen := true; documentPanelOpen := true; theme := light |}.

(** The store and what the persist middleware keeps under
    ['ui-storage']: the whole state, as no [partialize] is given. *)
Record World : Type := mkWorld {
  ui_storage : option State;
  current : State
}.

(** The stored state laid over the initial one; it has every field. *)
Definition rehydrate (stored : option State) : State :=
  match stored with
  | Some s => s
  | None => initial
  end.

Definition startup (stored : option State) : World :=
  mkWorld stored (rehydrate stored).

Definition set (w : World) (update : State -> State) : World :=
  let s := update (current w) in
  mkWorld (Some s) s.

Definition toggleSidebar (w : World) : World :=
  set w (fun s =>
    {| sidebarOpen := negb (sidebarOpen s);
       documentPanelOpen := documentPanelOpen s;
       theme := theme s |}).

Definition toggleDocumentPanel (w : World) : World :=
  set w (fun s =>
    {| sidebarOpen := sidebarOpen s;
       documentPanelOpen := negb (documentPanelOpen s);
       theme := theme s |}).

Definition setTheme (w : World) (t : Theme) : World :=
  set w (fun s =>
    {| sidebarOpen := sidebarOpen s;
       documentPanelOpen := documentPanelOpen s;
       theme := t |}).

Inductive Call : Type :=
  | ToggleSidebar
  | ToggleDocumentPanel
  | SetTheme (t : Theme).

Definition call (w : World) (c : Call) : World :=
  match c with
  | ToggleSidebar => toggleSidebar w
  | ToggleDocumentPanel => toggleDocumentPanel w
  | SetTheme t => setTheme w t
  end.

Definition calls (w : World) (cs : list Call) : World :=
  fold_left call cs w.

(** What a sequence of calls amounts to, read off the calls alone. *)

Definition is_sidebar (c : Call) : bool :=
  match c with ToggleSidebar => true | _ => false end.

Definition is_panel (c : Call) : bool :=
  match c with ToggleDocumentPanel => true | _ => false end.

Definition flips (which : Call -> bool) (cs : list Call) : bool :=
  Nat.odd (length (filter which cs)).

Fixpoint last_theme (cs : list Call) (t0 : Theme) : Theme :=
  match cs with
  | [] => t0
  | SetTheme t :: rest => last_theme rest t
  | _ :: rest => last_theme rest t0
  end.

End UI.

(** ** Calls of the Auth store, one after the other *)

Module AuthCalls.

Inductive Call : Type :=
  | SetUser (u : option User.t)
  | Login (email password : string) (reply_login : Reply AuthTokens.t)
      (reply_me : Reply User.t)
  | Logout
  | FetchCurrentUser (reply_me : Reply User.t).

Definition call (w : World Auth.State) (c : Call) : World Auth.State :=
  match c with
  | SetUser u => Auth.setUser w u
  | Login email password reply_login reply_me =>
      fst (Auth.login w email password reply_login reply_me)
  | Logout => fst (Auth.logout w)
  | FetchCurrentUser reply_me => fst (Auth.fetchCurrentUser w reply_me)
  end.

Definition calls (w : World Auth.State) (cs : list Call)
  : World Auth.State :=
  fold_left call cs w.

(** Reloading the page: the two [localStorage] entries survive, the
    request log and the store do not. *)
Definition reload (w : World Auth.State) : World Auth.State :=
  Auth.startup (Api.access_token (env w)) (Api.auth_storage (env w))
    (Api.href (env w)).

(** What every call of the Auth store keeps: nothing is left loading, a
    raised flag comes with a user, and storage holds the user shown. *)
Definition settled (w : World Auth.State) : Prop :=
  Auth.isLoading (state w) = false
  /\ (Auth.isAuthenticated (state w) = true -> Auth.user (state w) <> None)
  /\ Auth.user (Auth.rehydrate (Api.auth_storage (env w)))
     = Auth.user (state w).

End AuthCalls.

(** ** Calls of the Chat store, one after the other *)

(** The error a promise was rejected with, if it was. *)
Definition rejection {A : Type} (o : Outcome A) : option ErrorValue :=
  match o with
  | Resolved _ => None
  | Rejected e => Some e
  end.

(** The failure in a server's reply, if it is one. *)
Definition failure {A : Type} (r : Reply A) : option AxiosError.t :=
  match r with
  | Ok _ => None
  | Err e => Some e
  end.

Module ChatCalls.

Inductive Call : Type :=
  | FetchChats (reply : Reply ChatListResponse.t)
  | FetchChat (chatId : string) (reply : Reply ChatWithMessages.t)
  | CreateNewChat (title : option string) (reply : Reply Chat.t)
  | DeleteChat (chatId : string) (reply : Reply unit)
  | SendMessage (query : string) (documentIds : option (list string))
      (a : ChatStore.Ambient) (reply : Reply RAGResponse.t).

(** The world a call leaves and the rejection of its promise, if any. *)
Definition call (w : World ChatStore.State) (c : Call)
  : World ChatStore.State * option ErrorValue :=
  match c with
  | FetchChats reply =>
      let r := ChatStore.fetchChats w reply in (fst r, rejection (snd r))
  | FetchChat chatId reply =>
      let r := ChatStore.fetchChat w chatId reply in
      (fst r, rejection (snd r))
  | CreateNewChat title reply =>
      let r := ChatStore.createNewChat w title reply in
      (fst r, rejection (snd r))
  | DeleteChat chatId reply =>
      let r := ChatStore.deleteChat w chatId reply in
      (fst r, rejection (snd r))
  | SendMessage query documentIds a reply =>
      let r := ChatStore.sendMessage w query documentIds a reply in
      (fst r, rejection (snd r))
  end.

Definition calls (w : World ChatStore.State) (cs : list Call)
  : World ChatStore.State :=
  fold_left (fun w c => fst (call w c)) cs w.

(** The failure the server answers a call with, if it does. *)
Definition failure_of (c : Call) : option AxiosError.t :=
  match c with
  | FetchChats reply => failure reply
  | FetchChat _ reply => failure reply
  | CreateNewChat _ reply => failure reply
  | DeleteChat _ reply => failure reply
  | SendMessage _ _ _ reply => failure reply
  end.

(** The calls whose [catch] block rethrows. *)
Definition rethrows (c : Call) : bool :=
  match c with
  | CreateNewChat _ _ | SendMessage _ _ _ _ => true
  | FetchChats _ | FetchChat _ _ | DeleteChat _ _ => false
  end.

(** One message sent after the other, each call completing before the
    next starts; every call comes with its ambient values and reply. *)
Definition Send : Type :=
  (string * option (list string) * ChatStore.Ambient * Reply RAGResponse.t)%type.

Definition send (w : World ChatStore.State) (s : Send)
  : World ChatStore.State :=
  match s with
  | (query, documentIds, a, reply) =>
      fst (ChatStore.sendMessage w query documentIds a reply)
  end.

Definition sends (w : World ChatStore.State) (ss : list Send)
  : World ChatStore.State :=
  fold_left send ss w.


(** While [sendMessage] awaits the answer for chat [c], [fetchChat] is
    called for another chat and answered; then the answer to the message
    arrives. *)
Definition switch_during_send (w : World ChatStore.State) (c : Chat.t)
    (query : string) (a : ChatStore.Ambient) (otherId : string)
    (other : ChatWithMessages.t) (response : RAGResponse.t)
  : World ChatStore.State :=
  let w1 := ChatStore.sendMessage_begin w c query a in
  let w2 :=
    ChatStore.fetchChat_resume (ChatStore.fetchChat_begin w1) otherId
      (Ok other) in
  let (env3, r) :=
    Api.sendMessage (env w2) (Chat.id c) (ChatStore.rag_query query None)
      (Ok response) in
  fst (ChatStore.sendMessage_settle (with_env w2 env3) c a r).

(** A call that stops at its precondition: [sendMessage] without a
    current chat. Every other call sends its request. *)
Definition blocked (w : World ChatStore.State) (c : Call) : bool :=
  match c with
  | SendMessage _ _ _ _ => negb (truthy_object (ChatStore.currentChat (state w)))
  | _ => false
  end.

(** The messages an answer adds to the transcript. *)
Definition answer_of (c : Chat.t) (a : ChatStore.Ambient)
    (reply : Reply RAGResponse.t) : list Message.t :=
  match reply with
  | Ok response => [ChatStore.assistantMessage c response a]
  | Err _ => []
  end.

Definition has_role (r : Role) (m : Message.t) : bool :=
  match r, Message.role m with
  | user, user | assistant, assistant | system, system => true
  | _, _ => false
  end.

Definition is_answered (s : Send) : bool :=
  match s with
  | (_, _, _, Ok _) => true
  | (_, _, _, Err _) => false
  end.

End ChatCalls.

(** ** Calls of the Document store *)

Module DocumentCalls.

Inductive Call : Type :=
  | Toggle (documentId : string)
  | Fetch (category : option string) (reply : Reply DocumentListResponse.t)
  | Upload (file : string) (title description category : option string)
      (reply : Reply Document.t)
  | Delete (documentId : string) (reply : Reply unit).

Definition call (w : World DocumentStore.State) (c : Call)
  : World DocumentStore.State * option ErrorValue :=
  match c with
  | Toggle documentId =>
      (DocumentStore.toggleDocumentSelection w documentId, None)
  | Fetch category reply =>
      let r := DocumentStore.fetchDocuments w category reply in
      (fst r, rejection (snd r))
  | Upload file title description category reply =>
      let r :=
        DocumentStore.uploadDocument w file title description category
          reply in
      (fst r, rejection (snd r))
  | Delete documentId reply =>
      let r := DocumentStore.deleteDocument w documentId reply in
      (fst r, rejection (snd r))
  end.

Definition failure_of (c : Call) : option AxiosError.t :=
  match c with
  | Toggle _ => None
  | Fetch _ reply => failure reply
  | Upload _ _ _ _ reply => failure reply
  | Delete _ reply => failure reply
  end.

End DocumentCalls.

(** ** The application: three stores over one gateway *)

Module App.

Record t : Type := mk {
  gateway : Api.Env;
  auth : Auth.State;
  chat : ChatStore.State;
  docs : DocumentStore.State
}.

Inductive Call : Type :=
  | OfAuth (c : AuthCalls.Call)
  | OfChat (c : ChatCalls.Call)
  | OfDocs (c : DocumentCalls.Call).

Definition call (app : t) (c : Call) : t :=
  match c with
  | OfAuth c =>
      let w := AuthCalls.call (mkWorld (gateway app) (auth app)) c in
      {| gateway := env w; auth := state w;
         chat := chat app; docs := docs app |}
  | OfChat c =>
      let w := fst (ChatCalls.call (mkWorld (gateway app) (chat app)) c) in
      {| gateway := env w; auth := auth app;
         chat := state w; docs := docs app |}
  | OfDocs c =>
      let w := fst (DocumentCalls.call (mkWorld (gateway app) (docs app)) c) in
      {| gateway := env w; auth := auth app;
         chat := chat app; docs := state w |}
  end.

Definition calls (app : t) (cs : list Call) : t :=
  fold_left call cs app.

(** The page when it has loaded. *)
Definition startup (token : option string) (stored : option (option User.t))
    (url : string) : t :=
  {| gateway := Api.mkEnv token stored url [];
     auth := Auth.rehydrate stored;
     chat := ChatStore.initial;
     docs := DocumentStore.initial |}.

(** The failure the server answers a call of the Chat or Document store
    with; a call of the Auth store counts as none here. *)
Definition data_failure (c : Call) : option AxiosError.t :=
  match c with
  | OfAuth _ => None
  | OfChat c => ChatCalls.failure_of c
  | OfDocs c => DocumentCalls.failure_of c
  end.

Definition is_data_call (c : Call) : bool :=
  match c with
  | OfAuth _ => false
  | OfChat _ | OfDocs _ => true
  end.

(** Whether a call is answered with a 401. *)
Definition answered_401 (c : Call) : bool :=
  match data_failure c with
  | Some e => Api.is_unauthorized e
  | None => false
  end.

(** Whether a call of the Chat or Document store sends a request. *)
Definition sends_request (app : t) (c : Call) : bool :=
  match c with
  | OfAuth _ => false
  | OfChat c => negb (ChatCalls.blocked (mkWorld (gateway app) (chat app)) c)
  | OfDocs (DocumentCalls.Toggle _) => false
  | OfDocs _ => true
  end.

End App.

(** * Properties *)

(** ** The gateway's error normalization *)



Lemma handleError_reads_carried_detail (e : AxiosError.t) :
  Api.handleError (AxiosErr e)
  = or_default (carried_detail e) (JString "An error occurred").
Proof.
  unfold Api.handleError, carried_detail, opt_chain, get.
  destruct (AxiosError.response e) as [r|]; [|reflexivity].
  destruct (AxiosResponse.data r) as [[]|]; reflexivity.
Qed.



(** ** The Auth store *)

(** C1, as stated, fails at [setUser]: on a page opened without a token,
    [setUser(alice)] raises the flag although storage holds no token and
    no fetch of the user was ever made. *)
Lemma setUser_flag_without_token :
  let w := Auth.setUser Sample.anonymous (Some Sample.alice) in
  Auth.isAuthenticated (state w) = true
  /\ Api.access_token (env w) = None
  /\ Api.log (env w) = []
  /\ Auth.session_valid (env w) = false
  /\ (Auth.flag_matches_session w -> False).
Proof.
  repeat split; try reflexivity.
  intros [H _]. specialize (H eq_refl). vm_compute in H. discriminate.
Qed.

Ltac auth_unfold :=
  unfold Auth.flag_matches_session, Auth.session_valid,
    Auth.last_user_fetch_succeeded, Auth.fetchCurrentUser, Auth.login,
    Auth.logout, Auth.set, Auth.set_isLoading, Api.login,
    Api.getCurrentUser, Api.logout, Api.send, Api.on_response_error,
    Api.isAuthenticated, Api.getToken, Api.setToken, Api.clearToken,
    Api.navigate, Api.record, with_env in *.

Lemma fetchCurrentUser_flag (w : World Auth.State) (reply : Reply User.t) :
  Auth.flag_matches_session (fst (Auth.fetchCurrentUser w reply)).
Proof.
  destruct w as [[tok stored url lg] s].
  unfold Auth.fetchCurrentUser.
  destruct (Api.isAuthenticated _) eqn:Htok; simpl negb; cbv iota.
  - destruct reply as [u|err]; auth_unfold; simpl in *.
    + rewrite Htok. tauto.
    + destruct (Api.is_unauthorized err); simpl; split; intros H;
        try discriminate; rewrite andb_false_r in H; discriminate.
  - auth_unfold; simpl in *. rewrite Htok. simpl. tauto.
Qed.

Lemma logout_flag (w : World Auth.State) :
  Auth.flag_matches_session (fst (Auth.logout w)).
Proof. auth_unfold; simpl. tauto. Qed.

Lemma login_success_flag (w : World Auth.State) (email password : string)
    (t : AuthTokens.t) (u : User.t) :
  truthy_string (AuthTokens.access_token t) = true ->
  Auth.flag_matches_session
    (fst (Auth.login w email password (Ok t) (Ok u))).
Proof.
  intros Ht. auth_unfold; simpl. rewrite Ht. tauto.
Qed.

Lemma login_failure_flag (w : World Auth.State) (email password : string)
    (reply_login : Reply AuthTokens.t) (reply_me : Reply User.t) (e : ErrorValue) :
  Auth.flag_matches_session w ->
  Auth.isAuthenticated (state w) = false ->
  snd (Auth.login w email password reply_login reply_me) = Rejected e ->
  Auth.flag_matches_session
    (fst (Auth.login w email password reply_login reply_me)).
Proof.
  destruct w as [[tok stored url lg] [u a l]].
  intros Hinv Ha Hrej. simpl in Ha. subst a.
  assert (Hpre : Auth.session_valid (Api.mkEnv tok stored url lg) = false).
  { destruct (Auth.session_valid _) eqn:E; [|reflexivity].
    destruct Hinv as [_ Hinv]. simpl in Hinv. now apply Hinv in E. }
  clear Hinv. revert Hrej.
  destruct reply_login as [t|err]; [destruct reply_me as [v|err]|].
  - auth_unfold; simpl. discriminate.
  - intros _. auth_unfold; simpl.
    destruct (Api.is_unauthorized err); simpl; split; intros H;
      try discriminate; rewrite andb_false_r in H; discriminate.
  - intros _. auth_unfold; simpl in *.
    destruct (Api.is_unauthorized err); simpl; split; intros H;
      try discriminate. congruence.
Qed.

(** C1 (amended): the flag agrees with the derived session (a token the
    gateway sees is in storage and the last fetch of the user succeeded)
    after [fetchCurrentUser], after [logout], after a [login] whose two
    steps succeed with a non-empty token, after a failed [login] started
    where the flag was down and agreed, and when the persisted state has
    been restored at startup (only [user] is restored, the flag is down
    and no fetch has been made yet). [setUser(u)] instead sets the flag to
    whether [u] is non-null, whatever storage holds. *)
Theorem session_flag_by_operation :
  (forall w reply,
     Auth.flag_matches_session (fst (Auth.fetchCurrentUser w reply)))
  /\ (forall w, Auth.flag_matches_session (fst (Auth.logout w)))
  /\ (forall w email password t u,
        truthy_string (AuthTokens.access_token t) = true ->
        Auth.flag_matches_session
          (fst (Auth.login w email password (Ok t) (Ok u))))
  /\ (forall w email password reply_login reply_me e,
        Auth.flag_matches_session w ->
        Auth.isAuthenticated (state w) = false ->
        snd (Auth.login w email password reply_login reply_me) = Rejected e ->
        Auth.flag_matches_session
          (fst (Auth.login w email password reply_login reply_me)))
  /\ (forall token stored url,
        Auth.flag_matches_session (Auth.startup token stored url)
        /\ Auth.isAuthenticated (state (Auth.startup token stored url)) = false
        /\ Auth.user (state (Auth.startup token stored url))
           = match stored with Some u => u | None => None end)
  /\ (forall w u,
        Auth.isAuthenticated (state (Auth.setUser w u)) = truthy_object u).
Proof.
  split; [exact fetchCurrentUser_flag|].
  split; [exact logout_flag|].
  split; [exact login_success_flag|].
  split; [exact login_failure_flag|].
  split; [|reflexivity].
  intros token stored url.
  split; [|split]; [| destruct stored; reflexivity..].
  unfold Auth.flag_matches_session, Auth.session_valid,
    Auth.last_user_fetch_succeeded; simpl.
  rewrite andb_false_r. destruct stored; simpl; tauto.
Qed.

Lemma session_flag_by_operation_witness :
  Auth.flag_matches_session
    (fst (Auth.login Sample.anonymous "a@b.com" "pw"
            (Ok Sample.tokens) (Ok Sample.alice)))
  /\ Auth.flag_matches_session
       (fst (Auth.login Sample.anonymous "a@b.com" "wrong"
               (Err Sample.unauthorized) (Ok Sample.alice))).
Proof.
  destruct session_flag_by_operation as (_ & _ & Hok & Hfail & _).
  split.
  - apply Hok. reflexivity.
  - apply Hfail with (e := AxiosErr Sample.unauthorized).
    + vm_compute. split; discriminate.
    + reflexivity.
    + reflexivity.
Defined.

(** C9: [fetchCurrentUser] without a token the gateway sees resets the
    store to anonymous and sends no request; with a token and a failing
    fetch of the user it resets the store to anonymous, and its promise
    resolves all the same. The store has no field in which an error could
    be kept. *)
Theorem fetchCurrentUser_recovers :
  (forall w reply,
     Api.isAuthenticated (env w) = false ->
     let r := Auth.fetchCurrentUser w reply in
     snd r = Resolved tt
     /\ Auth.user (state (fst r)) = None
     /\ Auth.isAuthenticated (state (fst r)) = false
     /\ Api.log (env (fst r)) = Api.log (env w))
  /\ (forall w err,
        Api.isAuthenticated (env w) = true ->
        let r := Auth.fetchCurrentUser w (Err err) in
        snd r = Resolved tt
        /\ state (fst r) = Auth.initial
        /\ Api.log (env (fst r))
           = Api.mkExchange Api.GET_auth_me (Api.bearer (env w)) false
               :: Api.log (env w)).
Proof.
  split.
  - intros w reply Htok. unfold Auth.fetchCurrentUser. rewrite Htok.
    simpl. repeat split.
  - intros w err Htok. unfold Auth.fetchCurrentUser. rewrite Htok.
    simpl negb. cbv iota.
    unfold Api.getCurrentUser, Api.send, Api.on_response_error.
    destruct (Api.is_unauthorized err); simpl; repeat split.
Qed.

Lemma fetchCurrentUser_recovers_witness :
  snd (Auth.fetchCurrentUser Sample.anonymous (Ok Sample.alice)) = Resolved tt
  /\ Api.log (env (fst (Auth.fetchCurrentUser Sample.anonymous
                          (Ok Sample.alice)))) = []
  /\ state (fst (Auth.fetchCurrentUser Sample.returning
                   (Err Sample.unauthorized))) = Auth.initial
  /\ snd (Auth.fetchCurrentUser Sample.returning (Err Sample.unauthorized))
     = Resolved tt.
Proof.
  destruct fetchCurrentUser_recovers as (Hnone & Hfail).
  destruct (Hnone Sample.anonymous (Ok Sample.alice) eq_refl)
    as (H1 & _ & _ & H2).
  destruct (Hfail Sample.returning Sample.unauthorized eq_refl)
    as (H3 & H4 & _).
  repeat split; assumption.
Defined.

(** ** The Chat store *)

(** What [sendMessage] leaves behind when a chat is current. *)
Lemma sendMessage_run (w : World ChatStore.State) (c : Chat.t)
    (query : string) (documentIds : option (list string))
    (a : ChatStore.Ambient) (reply : Reply RAGResponse.t) :
  ChatStore.currentChat (state w) = Some c ->
  let r := ChatStore.sendMessage w query documentIds a reply in
  match reply with
  | Ok response =>
      snd r = Resolved tt
      /\ ChatStore.messages (state (fst r))
         = ChatStore.messages (state w)
           ++ [ChatStore.userMessage c query a;
               ChatStore.assistantMessage c response a]
      /\ ChatStore.error (state (fst r)) = None
  | Err err =>
      snd r = Rejected (AxiosErr err)
      /\ ChatStore.messages (state (fst r))
         = ChatStore.messages (state w) ++ [ChatStore.userMessage c query a]
      /\ ChatStore.error (state (fst r))
         = Some (Api.handleError (AxiosErr err))
  end.
Proof.
  intros Hc. unfold ChatStore.sendMessage. rewrite Hc.
  unfold Api.sendMessage, Api.send.
  destruct reply as [response|err]; simpl.
  - rewrite <- app_assoc. repeat split.
  - repeat split.
Qed.

(** C2: with a current chat, the optimistic user message (the generated
    id, role [user], the query as content) is among the messages when
    [sendMessage] has completed, whether the gateway call succeeded or
    failed; on failure the messages are those of before followed by it
    (nothing is rolled back), the normalized error is in the [error]
    field and the promise is rejected with the failure. The part that runs
    after the [await] never removes a message that is in the store at
    that moment. *)
Theorem sendMessage_keeps_optimistic_message
    (w : World ChatStore.State) (c : Chat.t) (query : string)
    (documentIds : option (list string)) (a : ChatStore.Ambient)
    (reply : Reply RAGResponse.t) :
  ChatStore.currentChat (state w) = Some c ->
  let m := ChatStore.userMessage c query a in
  let r := ChatStore.sendMessage w query documentIds a reply in
  Message.id m = ChatStore.randomUUID a
  /\ Message.role m = user
  /\ Message.content m = query
  /\ In m (ChatStore.messages (state (fst r)))
  /\ (forall err,
        reply = Err err ->
        ChatStore.messages (state (fst r))
        = ChatStore.messages (state w) ++ [m]
        /\ ChatStore.error (state (fst r))
           = Some (Api.handleError (AxiosErr err))
        /\ snd r = Rejected (AxiosErr err))
  /\ (forall w' outcome m',
        In m' (ChatStore.messages (state w')) ->
        In m' (ChatStore.messages
                 (state (fst (ChatStore.sendMessage_settle w' c a outcome))))).
Proof.
  intros Hc m r.
  pose proof (sendMessage_run w c query documentIds a reply Hc) as Hrun.
  fold r in Hrun.
  split; [reflexivity|]. split; [reflexivity|]. split; [reflexivity|].
  split; [|split].
  - destruct reply as [response|err].
    + destruct Hrun as (_ & Hm & _). rewrite Hm.
      apply in_or_app. right. left. reflexivity.
    + destruct Hrun as (_ & Hm & _). rewrite Hm.
      apply in_or_app. right. left. reflexivity.
  - intros err ->. destruct Hrun as (Hout & Hm & He). auto.
  - intros w' [response|e] m' Hin; simpl; [|assumption].
    apply in_or_app. left. assumption.
Qed.

Lemma sendMessage_keeps_optimistic_message_witness :
  In (ChatStore.userMessage Sample.notes "What is X?" Sample.ambient)
     (ChatStore.messages
        (state (fst (ChatStore.sendMessage Sample.chatting "What is X?" None
                       Sample.ambient (Err Sample.network_down)))))
  /\ snd (ChatStore.sendMessage Sample.chatting "What is X?" None
            Sample.ambient (Err Sample.network_down))
     = Rejected (AxiosErr Sample.network_down).
Proof.
  destruct (sendMessage_keeps_optimistic_message Sample.chatting Sample.notes
              "What is X?" None Sample.ambient (Err Sample.network_down)
              eq_refl) as (_ & _ & _ & Hin & Hfail & _).
  split; [exact Hin|].
  destruct (Hfail Sample.network_down eq_refl) as (_ & _ & Hout).
  exact Hout.
Defined.

(** C5: without a current chat [sendMessage] is rejected with the error
    "No active chat" before anything else happens: the world it leaves is
    the world it found (no message appended, the [error] field as it was,
    no request in the log). The rejection is decided in the part of the
    function that runs before any [await]. *)
Theorem sendMessage_without_chat
    (w : World ChatStore.State) (query : string)
    (documentIds : option (list string)) (a : ChatStore.Ambient)
    (reply : Reply RAGResponse.t) :
  ChatStore.currentChat (state w) = None ->
  ChatStore.sendMessage w query documentIds a reply
  = (w, Rejected (JsError "No active chat")).
Proof.
  intros Hc. unfold ChatStore.sendMessage. rewrite Hc. reflexivity.
Qed.

Lemma sendMessage_without_chat_witness :
  ChatStore.sendMessage Sample.idle "What is X?" None Sample.ambient
    (Err Sample.network_down)
  = (Sample.idle, Rejected (JsError "No active chat")).
Proof.
  apply (sendMessage_without_chat Sample.idle). reflexivity.
Defined.

(** C8: when the server has created chat [c], [createNewChat] leaves the
    list with [c] in front of the chats of before, [c] as the current chat
    and no messages, and its promise resolves to [c]. *)
Theorem createNewChat_prepends
    (w : World ChatStore.State) (title : option string) (c : Chat.t) :
  let r := ChatStore.createNewChat w title (Ok c) in
  snd r = Resolved c
  /\ ChatStore.chats (state (fst r)) = c :: ChatStore.chats (state w)
  /\ ChatStore.currentChat (state (fst r)) = Some c
  /\ ChatStore.messages (state (fst r)) = [].
Proof. repeat split. Qed.

(** C7: when the server has deleted the chat, [deleteChat(id)] keeps in
    the list exactly the chats whose id is not [id], in their order; the
    current chat and the messages change in that same update: to [null]
    and the empty list if the current chat has this id, and not at all
    otherwise. *)
Theorem deleteChat_removes (w : World ChatStore.State) (chatId : string) :
  let r := ChatStore.deleteChat w chatId (Ok tt) in
  let s := state w in
  let s' := state (fst r) in
  snd r = Resolved tt
  /\ s' = ChatStore.deleteChat_update chatId (ChatStore.loading s)
  /\ (forall c,
        In c (ChatStore.chats s')
        <-> In c (ChatStore.chats s) /\ Chat.id c <> chatId)
  /\ (forall c,
        ChatStore.currentChat s = Some c -> Chat.id c = chatId ->
        ChatStore.currentChat s' = None /\ ChatStore.messages s' = [])
  /\ (forall c,
        ChatStore.currentChat s = Some c -> Chat.id c <> chatId ->
        ChatStore.currentChat s' = Some c
        /\ ChatStore.messages s' = ChatStore.messages s)
  /\ (ChatStore.currentChat s = None ->
        ChatStore.currentChat s' = None
        /\ ChatStore.messages s' = ChatStore.messages s).
Proof.
  simpl. split; [reflexivity|]. split; [reflexivity|].
  split; [|split; [|split]].
  - intros c. rewrite filter_In, negb_true_iff.
    destruct (String.eqb_spec (Chat.id c) chatId); intuition congruence.
  - intros c Hc Hid. rewrite Hc. simpl. unfold opt_id_is. simpl.
    subst chatId. rewrite String.eqb_refl. auto.
  - intros c Hc Hid. rewrite Hc. unfold opt_id_is. simpl.
    apply String.eqb_neq in Hid. rewrite Hid. auto.
  - intros Hc. rewrite Hc. auto.
Qed.

Lemma deleteChat_removes_witness :
  let s' := state (fst (ChatStore.deleteChat Sample.chatting "c1" (Ok tt))) in
  ChatStore.chats s' = [Sample.drafts]
  /\ ChatStore.currentChat s' = None
  /\ ChatStore.messages s' = [].
Proof.
  destruct (deleteChat_removes Sample.chatting "c1")
    as (_ & _ & _ & Hcur & _).
  destruct (Hcur Sample.notes eq_refl eq_refl) as (H1 & H2).
  split; [reflexivity | split; assumption].
Defined.

Lemma fetch_step_view (s0 : ChatStore.State) (w : World ChatStore.State)
    (ev : ChatStore.FetchEvent) (acc : option ChatWithMessages.t) :
  ChatStore.view_after s0 acc (state w) ->
  ChatStore.view_after s0 (ChatStore.last_fetched [ev] acc)
    (state (ChatStore.fetch_step w ev)).
Proof.
  intros Hview. destruct ev as [chatId|chatId [c|err]]; simpl.
  - destruct acc; exact Hview.
  - split; reflexivity.
  - unfold ChatStore.fetchChat_resume, Api.getChat, Api.send. simpl.
    destruct acc; exact Hview.
Qed.

Lemma last_fetched_cons (ev : ChatStore.FetchEvent)
    (evs : list ChatStore.FetchEvent) (acc : option ChatWithMessages.t) :
  ChatStore.last_fetched (ev :: evs) acc
  = ChatStore.last_fetched evs (ChatStore.last_fetched [ev] acc).
Proof. destruct ev as [chatId|chatId [c|err]]; reflexivity. Qed.

Lemma fetch_run_view (s0 : ChatStore.State)
    (evs : list ChatStore.FetchEvent) :
  forall (w : World ChatStore.State) (acc : option ChatWithMessages.t),
    ChatStore.view_after s0 acc (state w) ->
    ChatStore.view_after s0 (ChatStore.last_fetched evs acc)
      (state (ChatStore.fetch_run w evs)).
Proof.
  induction evs as [|ev evs IH]; intros w acc Hview.
  - exact Hview.
  - rewrite last_fetched_cons. unfold ChatStore.fetch_run. simpl.
    apply IH. now apply fetch_step_view.
Qed.

(** C3: a call of [fetchChat] is the event [Called] followed by the event
    [Answered]; after any sequence of such events, in any interleaving,
    the current chat and the messages are both those of the last chat the
    server delivered, and both those of the start if it delivered none.
    As every prefix of a sequence is a sequence, no state in between pairs
    the messages of one chat with another current chat. *)
Theorem fetchChat_replaces_pair
    (w : World ChatStore.State) (evs : list ChatStore.FetchEvent) :
  (forall chatId reply,
     fst (ChatStore.fetchChat w chatId reply)
     = ChatStore.fetch_run w
         [ChatStore.Called chatId; ChatStore.Answered chatId reply])
  /\ match ChatStore.last_fetched evs None with
     | Some c =>
         ChatStore.currentChat (state (ChatStore.fetch_run w evs))
         = Some (ChatWithMessages.chat c)
         /\ ChatStore.messages (state (ChatStore.fetch_run w evs))
            = ChatWithMessages.messages c
     | None =>
         ChatStore.currentChat (state (ChatStore.fetch_run w evs))
         = ChatStore.currentChat (state w)
         /\ ChatStore.messages (state (ChatStore.fetch_run w evs))
            = ChatStore.messages (state w)
     end.
Proof.
  split; [reflexivity|].
  assert (H0 : ChatStore.view_after (state w) None (state w))
    by (split; reflexivity).
  apply (fetch_run_view (state w) evs) in H0.
  destruct (ChatStore.last_fetched evs None); exact H0.
Qed.

(** ** The Document store *)

Lemma includes_In (l : list string) (x : string) :
  includes l x = true <-> In x l.
Proof.
  unfold includes. rewrite existsb_exists. split.
  - intros (y & Hin & Heq). apply String.eqb_eq in Heq. now subst.
  - intros Hin. exists x. split; [assumption | apply String.eqb_refl].
Qed.

Lemma includes_filter_out (l : list string) (x y : string) :
  includes (filter (fun id => negb (String.eqb id x)) l) y
  = includes l y && negb (String.eqb y x).
Proof.
  induction l as [|z l IH]; [reflexivity|]. simpl.
  destruct (String.eqb_spec z x) as [->|Hzx]; simpl.
  - rewrite IH. destruct (String.eqb_spec x y) as [->|Hxy]; simpl.
    + rewrite String.eqb_refl. simpl. now rewrite andb_false_r.
    + reflexivity.
  - rewrite IH. destruct (String.eqb_spec z y) as [->|Hzy]; simpl.
    + apply String.eqb_neq in Hzx. now rewrite Hzx.
    + reflexivity.
Qed.

Lemma includes_app (l1 l2 : list string) (x : string) :
  includes (l1 ++ l2) x = includes l1 x || includes l2 x.
Proof. apply existsb_app. Qed.

Lemma includes_toggled_same (l : list string) (x : string) :
  includes (DocumentStore.toggled l x) x = negb (includes l x).
Proof.
  unfold DocumentStore.toggled. destruct (includes l x) eqn:E.
  - rewrite includes_filter_out, String.eqb_refl. simpl.
    now rewrite andb_false_r.
  - rewrite includes_app, E. simpl. now rewrite String.eqb_refl.
Qed.

Lemma includes_toggled_other (l : list string) (x y : string) :
  y <> x ->
  includes (DocumentStore.toggled l y) x = includes l x.
Proof.
  intros Hyx. unfold DocumentStore.toggled.
  assert (Hxy : String.eqb x y = false) by (apply String.eqb_neq; congruence).
  assert (Hyx' : String.eqb y x = false) by (now apply String.eqb_neq).
  destruct (includes l y).
  - rewrite includes_filter_out, Hxy. simpl. apply andb_true_r.
  - rewrite includes_app. simpl. rewrite Hyx'. simpl. apply orb_false_r.
Qed.

Lemma toggle_all_parity (ids : list string) (x : string) :
  forall w : World DocumentStore.State,
    includes
      (DocumentStore.selectedDocuments
         (state (DocumentStore.toggle_all w ids))) x
    = xorb (includes (DocumentStore.selectedDocuments (state w)) x)
        (Nat.odd (count_occ string_dec ids x)).
Proof.
  induction ids as [|y ids IH]; intros w.
  - simpl. now rewrite xorb_false_r.
  - unfold DocumentStore.toggle_all. simpl fold_left.
    fold (DocumentStore.toggle_all
            (DocumentStore.toggleDocumentSelection w y) ids).
    rewrite IH. simpl.
    destruct (string_dec y x) as [->|Hyx].
    + rewrite includes_toggled_same, Nat.odd_succ, <- Nat.negb_odd.
      destruct (includes _ x), (Nat.odd _); reflexivity.
    + now rewrite includes_toggled_other.
Qed.

(** C4: toggling is set-like. For the ids toggled since the store was
    created, in any order and mixed with toggles of other ids, [x] is
    selected at the end exactly when it was toggled an odd number of
    times; in particular after [n] toggles of [x] alone. From any other
    selection, a toggle of [x] flips whether [x] is selected and a toggle
    of another id does not touch it. *)
Theorem toggle_membership_is_parity (x : string) :
  (forall e ids,
     In x (DocumentStore.selectedDocuments
             (state (DocumentStore.toggle_all
                       (mkWorld e DocumentStore.initial) ids)))
     <-> Nat.odd (count_occ string_dec ids x) = true)
  /\ (forall e n,
        In x (DocumentStore.selectedDocuments
                (state (DocumentStore.toggle_all
                          (mkWorld e DocumentStore.initial) (repeat x n))))
        <-> Nat.odd n = true)
  /\ (forall w ids,
        includes
          (DocumentStore.selectedDocuments
             (state (DocumentStore.toggle_all w ids))) x
        = xorb (includes (DocumentStore.selectedDocuments (state w)) x)
            (Nat.odd (count_occ string_dec ids x))).
Proof.
  assert (Hinit : forall e ids,
            In x (DocumentStore.selectedDocuments
                    (state (DocumentStore.toggle_all
                              (mkWorld e DocumentStore.initial) ids)))
            <-> Nat.odd (count_occ string_dec ids x) = true).
  { intros e ids. rewrite <- includes_In, toggle_all_parity. simpl.
    reflexivity. }
  split; [exact Hinit|]. split.
  - intros e n. rewrite Hinit, count_occ_repeat_eq; reflexivity.
  - intros w ids. apply toggle_all_parity.
Qed.

Lemma toggled_NoDup (l : list string) (x : string) :
  NoDup l -> NoDup (DocumentStore.toggled l x).
Proof.
  intros Hl. unfold DocumentStore.toggled.
  destruct (includes l x) eqn:E.
  - now apply NoDup_filter.
  - apply NoDup_app; [assumption | repeat constructor; intros [] |].
    intros y Hy [<-|[]].
    apply includes_In in Hy. congruence.
Qed.

Lemma call_NoDup (w : World DocumentStore.State) (c : DocumentStore.Call) :
  NoDup (DocumentStore.selectedDocuments (state w)) ->
  NoDup (DocumentStore.selectedDocuments (state (DocumentStore.call w c))).
Proof.
  intros Hw. destruct c as [documentId|category reply|documentId reply].
  - simpl. now apply toggled_NoDup.
  - destruct reply; exact Hw.
  - destruct reply as [[]|err]; simpl.
    + now apply NoDup_filter.
    + exact Hw.
Qed.

Lemma calls_NoDup (cs : list DocumentStore.Call) :
  forall w : World DocumentStore.State,
    NoDup (DocumentStore.selectedDocuments (state w)) ->
    NoDup (DocumentStore.selectedDocuments (state (DocumentStore.calls w cs))).
Proof.
  induction cs as [|c cs IH]; intros w Hw; [exact Hw|].
  unfold DocumentStore.calls. simpl. apply IH. now apply call_NoDup.
Qed.

(** C10: from the empty selection of a new store, after any sequence of
    [toggleDocumentSelection], [fetchDocuments] and [deleteDocument]
    calls, whatever the server answers, no id occurs twice in
    [selectedDocuments]. *)
Theorem selection_has_no_duplicates
    (e : Api.Env) (cs : list DocumentStore.Call) :
  NoDup (DocumentStore.selectedDocuments
           (state (DocumentStore.calls (mkWorld e DocumentStore.initial) cs))).
Proof. apply calls_NoDup. constructor. Qed.

(** * Further properties of the stores *)

(** ** The UI store *)

Lemma odd_length_cons {A : Type} (x : A) (l : list A) :
  Nat.odd (length (x :: l)) = negb (Nat.odd (length l)).
Proof. simpl length. now rewrite Nat.odd_succ, <- Nat.negb_odd. Qed.

(** A sequence of UI calls amounts to this: the sidebar flag is flipped
    when [toggleSidebar] occurs an odd number of times, the document panel
    flag likewise for [toggleDocumentPanel], and the theme is the one of
    the last [setTheme], or the old one; no call disturbs a field that is
    not its own. *)
Theorem ui_calls_amount_to (cs : list UI.Call) :
  forall w : UI.World,
    let s := UI.current (UI.calls w cs) in
    UI.sidebarOpen s
    = xorb (UI.sidebarOpen (UI.current w)) (UI.flips UI.is_sidebar cs)
    /\ UI.documentPanelOpen s
       = xorb (UI.documentPanelOpen (UI.current w))
           (UI.flips UI.is_panel cs)
    /\ UI.theme s = UI.last_theme cs (UI.theme (UI.current w)).
Proof.
  induction cs as [|c cs IH]; intros w.
  - simpl. now rewrite !xorb_false_r.
  - unfold UI.calls. simpl fold_left. fold (UI.calls (UI.call w c) cs).
    destruct (IH (UI.call w c)) as (Hs & Hp & Ht).
    cbv zeta. rewrite Hs, Hp, Ht. unfold UI.flips.
    destruct w as [st [a b t0]].
    destruct c as [| |t]; simpl filter; rewrite ?odd_length_cons; simpl;
      repeat split;
      destruct a, b, (Nat.odd (length (filter UI.is_sidebar cs))),
        (Nat.odd (length (filter UI.is_panel cs))); reflexivity.
Qed.

Lemma ui_calls_stored (cs : list UI.Call) :
  forall w : UI.World,
    UI.rehydrate (UI.ui_storage w) = UI.current w ->
    UI.rehydrate (UI.ui_storage (UI.calls w cs)) = UI.current (UI.calls w cs).
Proof.
  induction cs as [|c cs IH]; intros w Hw; [exact Hw|].
  unfold UI.calls. simpl fold_left. apply IH.
  destruct c; reflexivity.
Qed.

(** The UI preferences survive a reload whole: whatever was stored when
    the page loaded and whatever calls were made since, loading the page
    again from what is then in storage gives the same three fields. *)
Theorem ui_reload_restores
    (stored : option UI.State) (cs : list UI.Call) :
  let w := UI.calls (UI.startup stored) cs in
  UI.current (UI.startup (UI.ui_storage w)) = UI.current w.
Proof. apply ui_calls_stored. reflexivity. Qed.

(** ** The Auth store over sequences of calls *)

(** ** The Auth store over sequences of calls *)

Lemma auth_call_settled (w : World Auth.State) (c : AuthCalls.Call) :
  AuthCalls.settled w -> AuthCalls.settled (AuthCalls.call w c).
Proof.
  destruct w as [[tok stored url lg] [u a l]].
  intros (Hl & Ha & Hs). simpl in Hl, Ha. subst l.
  destruct c as [v|email password rl rm| |rm].
  - simpl. unfold AuthCalls.settled. simpl.
    split; [reflexivity|]. split; [|reflexivity].
    destruct v; [discriminate | intros H; discriminate H].
  - unfold AuthCalls.call.
    destruct rl as [t|err]; [destruct rm as [v|err]|];
      auth_unfold; unfold AuthCalls.settled; simpl;
      try (destruct (Api.is_unauthorized err)); simpl;
      repeat split; try assumption; discriminate.
  - unfold AuthCalls.settled. simpl. repeat split. discriminate.
  - unfold AuthCalls.call, Auth.fetchCurrentUser.
    destruct (negb (Api.isAuthenticated _)).
    + unfold AuthCalls.settled. simpl. repeat split. discriminate.
    + destruct rm as [v|err]; auth_unfold; unfold AuthCalls.settled; simpl;
        try (destruct (Api.is_unauthorized err)); simpl;
        repeat split; discriminate.
Qed.

Lemma auth_calls_settled (cs : list AuthCalls.Call) :
  forall w, AuthCalls.settled w -> AuthCalls.settled (AuthCalls.calls w cs).
Proof.
  induction cs as [|c cs IH]; intros w Hw; [exact Hw|].
  unfold AuthCalls.calls. simpl. apply IH. now apply auth_call_settled.
Qed.

Lemma auth_startup_settled (token : option string)
    (stored : option (option User.t)) (url : string) :
  AuthCalls.settled (Auth.startup token stored url).
Proof.
  unfold AuthCalls.settled. simpl.
  destruct stored; simpl; repeat split; discriminate.
Qed.

(** Whatever calls of the Auth store were made since the page loaded, in
    whatever order, failing or succeeding: when they have completed
    nothing is left loading, and [isAuthenticated] is never true next to a
    [null] user. This is for answers of the declared types: a successful
    fetch of the user carries a user record ([Reply User.t]). The code
    stores the body as it comes, so an answer with an empty body is
    outside this statement. *)
Theorem auth_flag_comes_with_user
    (token : option string) (stored : option (option User.t))
    (url : string) (cs : list AuthCalls.Call) :
  let w := AuthCalls.calls (Auth.startup token stored url) cs in
  Auth.isLoading (state w) = false
  /\ (Auth.isAuthenticated (state w) = true ->
      exists u, Auth.user (state w) = Some u).
Proof.
  destruct (auth_calls_settled cs _ (auth_startup_settled token stored url))
    as (Hl & Ha & _).
  split; [exact Hl|]. intros H. specialize (Ha H).
  destruct (Auth.user _) as [u|]; [now exists u | congruence].
Qed.

(** A reload keeps the user and drops the session flag: after any calls
    of the Auth store, loading the page again from what is then in
    [localStorage] shows the same user with [isAuthenticated] false, until
    the user is fetched again. *)
Theorem auth_reload_keeps_user_only
    (token : option string) (stored : option (option User.t))
    (url : string) (cs : list AuthCalls.Call) :
  let w := AuthCalls.calls (Auth.startup token stored url) cs in
  state (AuthCalls.reload w)
  = {| Auth.user := Auth.user (state w);
       Auth.isAuthenticated := false;
       Auth.isLoading := false |}
  /\ Api.access_token (env (AuthCalls.reload w)) = Api.access_token (env w)
  /\ Api.log (env (AuthCalls.reload w)) = [].
Proof.
  destruct (auth_calls_settled cs _ (auth_startup_settled token stored url))
    as (_ & _ & Hs).
  set (w := AuthCalls.calls (Auth.startup token stored url) cs) in *.
  cbv zeta. split; [|split; reflexivity].
  unfold AuthCalls.reload, Auth.startup. cbn [state].
  rewrite <- Hs. destruct (Api.auth_storage (env w)); reflexivity.
Qed.

(** [logout] sends nothing and cannot fail: it resolves, the token is
    gone from storage, the store is anonymous, the request log is as it
    was; and a [fetchCurrentUser] that follows stays anonymous without
    asking the server, whatever the server would have answered. *)
Theorem logout_is_local (w : World Auth.State) :
  let r := Auth.logout w in
  snd r = Resolved tt
  /\ Api.access_token (env (fst r)) = None
  /\ Auth.user (state (fst r)) = None
  /\ Auth.isAuthenticated (state (fst r)) = false
  /\ Api.log (env (fst r)) = Api.log (env w)
  /\ Api.href (env (fst r)) = Api.href (env w)
  /\ (forall reply,
        let r' := Auth.fetchCurrentUser (fst r) reply in
        Api.log (env (fst r')) = Api.log (env w)
        /\ Auth.user (state (fst r')) = None
        /\ Auth.isAuthenticated (state (fst r')) = false).
Proof. repeat split. Qed.

(** The three ways a [login] ends. When the credentials are refused the
    user is never fetched, the store keeps its user and flag, and no token
    is stored. When the token arrives but the fetch of the user fails, the
    promise is rejected and the store keeps its user and flag although the
    new token is in storage (unless the failure was a 401, which clears
    it). When both succeed the store holds the user with the flag up, and
    the fetch of the user already carried the new token. *)
Theorem login_outcomes (w : World Auth.State) (email password : string) :
  (forall err reply_me,
     let r := Auth.login w email password (Err err) reply_me in
     snd r = Rejected (AxiosErr err)
     /\ state (fst r)
        = {| Auth.user := Auth.user (state w);
             Auth.isAuthenticated := Auth.isAuthenticated (state w);
             Auth.isLoading := false |}
     /\ map Api.request (Api.log (env (fst r)))
        = Api.POST_auth_login (UserLogin.mk email password)
            :: map Api.request (Api.log (env w))
     /\ Api.access_token (env (fst r))
        = if Api.is_unauthorized err then None
          else Api.access_token (env w))
  /\ (forall t err,
        let r := Auth.login w email password (Ok t) (Err err) in
        snd r = Rejected (AxiosErr err)
        /\ state (fst r)
           = {| Auth.user := Auth.user (state w);
                Auth.isAuthenticated := Auth.isAuthenticated (state w);
                Auth.isLoading := false |}
        /\ Api.access_token (env (fst r))
           = if Api.is_unauthorized err then None
             else Some (AuthTokens.access_token t))
  /\ (forall t u,
        let r := Auth.login w email password (Ok t) (Ok u) in
        snd r = Resolved tt
        /\ state (fst r)
           = {| Auth.user := Some u;
                Auth.isAuthenticated := true;
                Auth.isLoading := false |}
        /\ Api.access_token (env (fst r))
           = Some (AuthTokens.access_token t)
        /\ Api.auth_storage (env (fst r)) = Some (Some u)
        /\ Api.log (env (fst r))
           = Api.mkExchange Api.GET_auth_me
               (if truthy_string (AuthTokens.access_token t)
                then Some ("Bearer " ++ AuthTokens.access_token t)%string
                else None)
               true
             :: Api.mkExchange
                  (Api.POST_auth_login (UserLogin.mk email password))
                  (Api.bearer (env w)) true
             :: Api.log (env w)).
Proof.
  split; [|split].
  - intros err reply_me. auth_unfold. simpl.
    destruct (Api.is_unauthorized err); repeat split.
  - intros t err. auth_unfold. simpl.
    destruct (Api.is_unauthorized err); repeat split.
  - intros t u. repeat split.
Qed.

(** ** The gateway *)

(** What [handleError] returns is never falsy, whatever it is given and
    whatever the body of the response holds, a detail that is not a string
    included: a falsy detail ([null], [false], zero, the empty string) is
    replaced by the fallback. In particular the result is never the empty
    string. *)
Theorem handleError_never_empty (error : ErrorValue) :
  truthy (Api.handleError error) = true
  /\ Api.handleError error <> JString "".
Proof.
  assert (H : truthy (Api.handleError error) = true).
  { destruct error as [e|m|p]; [|reflexivity..].
    rewrite handleError_reads_carried_detail.
    destruct (carried_detail e) as [d|]; [|reflexivity].
    unfold or_default.
    destruct (truthy d) eqn:E; [exact E | reflexivity]. }
  split; [exact H|]. intros Heq. rewrite Heq in H. discriminate H.
Qed.

(** ** The Chat store, call by call *)

Ltac chat_unfold :=
  unfold ChatCalls.call, ChatCalls.blocked, ChatCalls.failure_of,
    ChatCalls.rethrows, failure, rejection,
    ChatStore.fetchChats, ChatStore.fetchChat, ChatStore.fetchChat_resume,
    ChatStore.fetchChat_begin, ChatStore.fetchChat_settle,
    ChatStore.createNewChat, ChatStore.deleteChat, ChatStore.sendMessage,
    ChatStore.sendMessage_begin, ChatStore.sendMessage_settle,
    Api.listChats, Api.getChat, Api.createChat, Api.deleteChat,
    Api.sendMessage, Api.send, Api.on_response_error in *.

(** Every call of the Chat store that gets past its precondition sends
    exactly one request, with the header of the moment, and ends the same
    way: nothing is left loading; [error] is empty after a success and
    holds the normalized message after a failure; the promise is rejected
    with the failure by [createNewChat] and [sendMessage] and resolves
    nevertheless for [fetchChats], [fetchChat] and [deleteChat]. *)
Theorem chat_call_settles (w : World ChatStore.State) (c : ChatCalls.Call) :
  ChatCalls.blocked w c = false ->
  let r := ChatCalls.call w c in
  ChatStore.isLoading (state (fst r)) = false
  /\ ChatStore.error (state (fst r))
     = option_map (fun e => Api.handleError (AxiosErr e))
         (ChatCalls.failure_of c)
  /\ snd r
     = (if ChatCalls.rethrows c
        then option_map AxiosErr (ChatCalls.failure_of c)
        else None)
  /\ exists x,
       Api.log (env (fst r)) = x :: Api.log (env w)
       /\ Api.authorization x = Api.bearer (env w)
       /\ Api.succeeded x
          = match ChatCalls.failure_of c with
            | None => true
            | Some _ => false
            end.
Proof.
  intros Hb.
  destruct c as [reply|chatId reply|title reply|chatId reply
                |query documentIds a reply];
    chat_unfold;
    try (destruct (ChatStore.currentChat (state w)) as [cur|];
         [clear Hb | discriminate Hb]);
    destruct reply as [d|err]; simpl;
    try (destruct (Api.is_unauthorized err)); simpl;
    repeat split; eexists; repeat split.
Qed.

Lemma chat_call_settles_witness :
  ChatStore.error
    (state (fst (ChatCalls.call Sample.chatting
                   (ChatCalls.DeleteChat "c1" (Err Sample.not_found)))))
  = Some (JString "Chat not found")
  /\ snd (ChatCalls.call Sample.chatting
            (ChatCalls.DeleteChat "c1" (Err Sample.not_found))) = None.
Proof.
  destruct (chat_call_settles Sample.chatting
              (ChatCalls.DeleteChat "c1" (Err Sample.not_found)) eq_refl)
    as (_ & He & Hr & _).
  split; [exact He | exact Hr].
Defined.

(** A call of the Chat store that the server fails loses nothing: the
    list of chats and the current chat are as before, and so are the
    messages, but for the one user message that a [sendMessage] has
    appended before asking. *)
Theorem chat_call_failure_keeps_data
    (w : World ChatStore.State) (c : ChatCalls.Call) (err : AxiosError.t) :
  ChatCalls.failure_of c = Some err ->
  let s := state w in
  let s' := state (fst (ChatCalls.call w c)) in
  ChatStore.chats s' = ChatStore.chats s
  /\ ChatStore.currentChat s' = ChatStore.currentChat s
  /\ exists added,
       ChatStore.messages s' = ChatStore.messages s ++ added
       /\ length added <= 1
       /\ (forall m, In m added ->
             Message.role m = user
             /\ match c with
                | ChatCalls.SendMessage query _ _ _ =>
                    Message.content m = query
                | _ => False
                end).
Proof.
  intros Hf.
  assert (Hnone : forall (l : list Message.t) (P : Message.t -> Prop),
            exists added : list Message.t,
              l = l ++ added /\ length added <= 1
              /\ (forall m, In m added -> P m)).
  { intros l P. exists []. rewrite app_nil_r.
    split; [reflexivity|]. split; [simpl; lia | intros m []]. }
  destruct c as [reply|chatId reply|title reply|chatId reply
                |query documentIds a reply];
    destruct reply as [d|e]; try discriminate Hf; chat_unfold.
  1-4: simpl; destruct (Api.is_unauthorized e); simpl;
    (split; [reflexivity|]); (split; [reflexivity|]); apply Hnone.
  destruct (ChatStore.currentChat (state w)) as [cur|] eqn:Hcur.
  - simpl. destruct (Api.is_unauthorized e); simpl;
      (split; [reflexivity|]); (split; [now rewrite Hcur|]);
      exists [ChatStore.userMessage cur query a];
      (split; [reflexivity|]); (split; [simpl; lia|]);
      intros m [<-|[]]; split; reflexivity.
  - simpl. split; [reflexivity|]. split; [now rewrite Hcur|]. apply Hnone.
Qed.

Lemma chat_call_failure_keeps_data_witness :
  ChatStore.chats
    (state (fst (ChatCalls.call Sample.chatting
                   (ChatCalls.CreateNewChat (Some "Plans")
                      (Err Sample.network_down)))))
  = [Sample.drafts; Sample.notes].
Proof.
  destruct (chat_call_failure_keeps_data Sample.chatting
              (ChatCalls.CreateNewChat (Some "Plans")
                 (Err Sample.network_down))
              Sample.network_down eq_refl) as (Hc & _).
  exact Hc.
Defined.

Lemma send_step (w : World ChatStore.State) (c : Chat.t)
    (query : string) (documentIds : option (list string))
    (a : ChatStore.Ambient) (reply : Reply RAGResponse.t) :
  ChatStore.currentChat (state w) = Some c ->
  let w' := ChatCalls.send w (query, documentIds, a, reply) in
  ChatStore.currentChat (state w') = Some c
  /\ ChatStore.chats (state w') = ChatStore.chats (state w)
  /\ ChatStore.messages (state w')
     = ChatStore.messages (state w)
       ++ ChatStore.userMessage c query a :: ChatCalls.answer_of c a reply.
Proof.
  intros Hc. unfold ChatCalls.send, ChatStore.sendMessage. rewrite Hc.
  chat_unfold. destruct reply as [response|err]; simpl.
  - rewrite <- app_assoc. auto.
  - destruct (Api.is_unauthorized err); simpl; auto.
Qed.

(** Messages sent one after the other into the current chat only ever
    extend the transcript: the current chat and the list of chats stay,
    the old messages stay in front, every message added belongs to the
    current chat, there is one user message per call and one assistant
    message per call the server answered. *)
Theorem sends_grow_transcript (ss : list ChatCalls.Send) :
  forall (w : World ChatStore.State) (c : Chat.t),
    ChatStore.currentChat (state w) = Some c ->
    let w' := ChatCalls.sends w ss in
    ChatStore.currentChat (state w') = Some c
    /\ ChatStore.chats (state w') = ChatStore.chats (state w)
    /\ exists added,
         ChatStore.messages (state w') = ChatStore.messages (state w) ++ added
         /\ Forall (fun m => Message.chat_id m = Chat.id c) added
         /\ length (filter (ChatCalls.has_role user) added) = length ss
         /\ length (filter (ChatCalls.has_role assistant) added)
            = length (filter ChatCalls.is_answered ss).
Proof.
  induction ss as [|[[[query documentIds] a] reply] ss IH]; intros w c Hc.
  - simpl. repeat split; try assumption.
    exists []. rewrite app_nil_r. repeat split. constructor.
  - destruct (send_step w c query documentIds a reply Hc)
      as (Hc1 & Hl1 & Hm1).
    destruct (IH _ c Hc1) as (Hc2 & Hl2 & added & Hm2 & Hall & Hu & Ha).
    cbv zeta in *.
    change (ChatCalls.sends w ((query, documentIds, a, reply) :: ss))
      with (ChatCalls.sends
              (ChatCalls.send w (query, documentIds, a, reply)) ss).
    split; [exact Hc2|]. split; [now rewrite Hl2|].
    exists ((ChatStore.userMessage c query a
               :: ChatCalls.answer_of c a reply) ++ added).
    split; [rewrite Hm2, Hm1, <- app_assoc; reflexivity|].
    split; [|split].
    + apply Forall_app. split; [|exact Hall].
      destruct reply; repeat constructor.
    + rewrite filter_app, length_app, Hu. destruct reply; reflexivity.
    + rewrite filter_app, length_app, Ha. destruct reply; reflexivity.
Qed.

Lemma sends_grow_transcript_witness :
  ChatStore.currentChat
    (state (ChatCalls.sends Sample.chatting
              [("What is X?", None, Sample.ambient, Err Sample.network_down);
               ("And Y?", None, Sample.ambient, Err Sample.not_found)]))
  = Some Sample.notes.
Proof.
  destruct (sends_grow_transcript
              [("What is X?", None, Sample.ambient, Err Sample.network_down);
               ("And Y?", None, Sample.ambient, Err Sample.not_found)]
              Sample.chatting Sample.notes eq_refl) as (Hc & _).
  exact Hc.
Defined.


(** An answer that arrives late lands in the wrong transcript: when the
    user opens another chat while a message to chat [c] awaits its answer,
    the messages are then those of the other chat followed by the answer
    meant for [c] (it still carries the id of [c]), and the user's own
    message is no longer among them unless the other chat had it. *)
Theorem late_answer_joins_other_chat
    (w : World ChatStore.State) (c : Chat.t) (query : string)
    (a : ChatStore.Ambient) (otherId : string)
    (other : ChatWithMessages.t) (response : RAGResponse.t) :
  let w' := ChatCalls.switch_during_send w c query a otherId other response in
  ChatStore.currentChat (state w') = Some (ChatWithMessages.chat other)
  /\ ChatStore.messages (state w')
     = ChatWithMessages.messages other
       ++ [ChatStore.assistantMessage c response a]
  /\ Message.chat_id (ChatStore.assistantMessage c response a) = Chat.id c
  /\ (In (ChatStore.userMessage c query a) (ChatStore.messages (state w'))
      <-> In (ChatStore.userMessage c query a)
            (ChatWithMessages.messages other)).
Proof.
  cbv zeta. unfold ChatCalls.switch_during_send. chat_unfold. simpl.
  repeat split.
  - intros H. apply in_app_or in H. destruct H as [H|[H|[]]]; [exact H|].
    discriminate H.
  - intros H. apply in_or_app. now left.
Qed.

(** The title [createNewChat] posts is never empty: it is the title given
    when that is a non-empty string, and "New Chat" when none or an empty
    one is given. *)
Theorem createNewChat_posts_title
    (w : World ChatStore.State) (title : option string)
    (reply : Reply Chat.t) :
  exists posted auth ok,
    Api.log (env (fst (ChatStore.createNewChat w title reply)))
    = Api.mkExchange (Api.POST_chats posted) auth ok :: Api.log (env w)
    /\ truthy_string posted = true
    /\ posted = match title with
                | Some s => if truthy_string s then s else "New Chat"
                | None => "New Chat"
                end.
Proof.
  chat_unfold.
  destruct reply as [c|err]; simpl;
    try destruct (Api.is_unauthorized err); simpl;
    do 3 eexists; (split; [reflexivity|]);
    (split; [|reflexivity]);
    destruct title as [s|]; simpl; try reflexivity;
    destruct (truthy_string s) eqn:E; simpl; auto.
Qed.

(** ** The Document store, call by call *)

Ltac docs_unfold :=
  unfold DocumentCalls.call, DocumentCalls.failure_of, failure, rejection,
    DocumentStore.fetchDocuments, DocumentStore.uploadDocument,
    DocumentStore.deleteDocument, DocumentStore.toggleDocumentSelection,
    Api.listDocuments, Api.uploadDocument, Api.deleteDocument, Api.send,
    Api.on_response_error in *.

(** When the server has deleted the document, [deleteDocument(id)] keeps
    exactly the documents whose id is not [id], takes [id] out of the
    selection and leaves every other selected id in place, and clears the
    current document if and only if it is the deleted one. *)
Theorem deleteDocument_removes
    (w : World DocumentStore.State) (documentId : string) :
  let r := DocumentStore.deleteDocument w documentId (Ok tt) in
  let s := state w in
  let s' := state (fst r) in
  snd r = Resolved tt
  /\ (forall d,
        In d (DocumentStore.documents s')
        <-> In d (DocumentStore.documents s) /\ Document.id d <> documentId)
  /\ (forall x,
        In x (DocumentStore.selectedDocuments s')
        <-> In x (DocumentStore.selectedDocuments s) /\ x <> documentId)
  /\ (forall d,
        DocumentStore.currentDocument s = Some d ->
        DocumentStore.currentDocument s'
        = if String.eqb (Document.id d) documentId then None else Some d)
  /\ (DocumentStore.currentDocument s = None ->
      DocumentStore.currentDocument s' = None).
Proof.
  simpl. split; [reflexivity|]. split; [|split; [|split]].
  - intros d. rewrite filter_In, negb_true_iff.
    destruct (String.eqb_spec (Document.id d) documentId);
      intuition congruence.
  - intros x. rewrite filter_In, negb_true_iff.
    destruct (String.eqb_spec x documentId); intuition congruence.
  - intros d Hd. rewrite Hd. unfold opt_id_is. simpl.
    destruct (String.eqb _ _); reflexivity.
  - intros Hd. rewrite Hd. reflexivity.
Qed.

(** Every call of the Document store that asks the server sends exactly
    one request and ends the same way: nothing is left loading, [error] is
    empty after a success and holds the normalized message after a
    failure; only [uploadDocument] passes the failure on to its caller. A
    failure leaves the documents, the selection and the current document
    as they were. *)
Theorem document_call_settles
    (w : World DocumentStore.State) (c : DocumentCalls.Call) :
  (forall documentId, c <> DocumentCalls.Toggle documentId) ->
  let r := DocumentCalls.call w c in
  let s := state w in
  let s' := state (fst r) in
  DocumentStore.isLoading s' = false
  /\ DocumentStore.error s'
     = option_map (fun e => Api.handleError (AxiosErr e))
         (DocumentCalls.failure_of c)
  /\ snd r
     = match c with
       | DocumentCalls.Upload _ _ _ _ _ =>
           option_map AxiosErr (DocumentCalls.failure_of c)
       | _ => None
       end
  /\ length (Api.log (env (fst r))) = S (length (Api.log (env w)))
  /\ (DocumentCalls.failure_of c <> None ->
      DocumentStore.documents s' = DocumentStore.documents s
      /\ DocumentStore.selectedDocuments s'
         = DocumentStore.selectedDocuments s
      /\ DocumentStore.currentDocument s' = DocumentStore.currentDocument s).
Proof.
  intros Hc.
  destruct c as [documentId|category reply|file title description category
                   reply|documentId reply];
    [now contradiction (Hc documentId)|..];
    docs_unfold; destruct reply as [d|err]; simpl;
    try destruct (Api.is_unauthorized err); simpl;
    (split; [reflexivity|]); (split; [reflexivity|]);
    (split; [reflexivity|]); (split; [reflexivity|]);
    intros Hfail; try (now contradiction Hfail); auto.
Qed.

Lemma document_call_settles_witness :
  DocumentStore.error
    (state (fst (DocumentCalls.call
                   (mkWorld Sample.signed_in DocumentStore.initial)
                   (DocumentCalls.Delete "d1" (Err Sample.network_down)))))
  = Some (JString "An error occurred").
Proof.
  destruct (document_call_settles
              (mkWorld Sample.signed_in DocumentStore.initial)
              (DocumentCalls.Delete "d1" (Err Sample.network_down)))
    as (_ & He & _).
  - intros documentId. discriminate.
  - exact He.
Defined.

(** An uploaded document goes to the front of the list and touches
    neither the selection nor the current document; of the title, the
    description and the category, exactly those that are non-empty strings
    go into the request. *)
Theorem uploadDocument_prepends
    (w : World DocumentStore.State) (file : string)
    (title description category : option string) (d : Document.t) :
  let r :=
    DocumentStore.uploadDocument w file title description category (Ok d) in
  let sent (v : option string) := if truthy_opt_string v then v else None in
  snd r = Resolved tt
  /\ DocumentStore.documents (state (fst r))
     = d :: DocumentStore.documents (state w)
  /\ DocumentStore.selectedDocuments (state (fst r))
     = DocumentStore.selectedDocuments (state w)
  /\ DocumentStore.currentDocument (state (fst r))
     = DocumentStore.currentDocument (state w)
  /\ map Api.request (Api.log (env (fst r)))
     = Api.POST_documents_upload file (sent title) (sent description)
         (sent category)
       :: map Api.request (Api.log (env w))
  /\ (forall v, sent v <> Some "").
Proof.
  cbv zeta. repeat split.
  intros [s|]; simpl; [|discriminate].
  destruct s; simpl; discriminate.
Qed.

Lemma filter_out_absent (l : list string) (x : string) :
  includes l x = false ->
  filter (fun id => negb (String.eqb id x)) l = l.
Proof.
  induction l as [|y l IH]; [reflexivity|]. simpl. intros H.
  apply orb_false_iff in H. destruct H as (Hy & Hl).
  rewrite Hy. simpl. now rewrite IH.
Qed.

Lemma filter_out_other (l : list string) (x : string) :
  filter (fun id => negb (String.eqb id x)) (DocumentStore.toggled l x)
  = filter (fun id => negb (String.eqb id x)) l.
Proof.
  unfold DocumentStore.toggled. destruct (includes l x).
  - induction l as [|y l IH]; [reflexivity|]. simpl.
    destruct (String.eqb y x) eqn:E; simpl; [exact IH|].
    rewrite E. simpl. now rewrite IH.
  - rewrite filter_app. simpl. rewrite String.eqb_refl. simpl.
    apply app_nil_r.
Qed.

(** Toggling an id never disturbs the others: the selected ids other than
    [x] are the same, in the same order, before and after a toggle of [x].
    Toggling [x] twice gives back the membership of every id, and the very
    same list when [x] was not selected. *)
Theorem toggle_twice (l : list string) (x : string) :
  filter (fun id => negb (String.eqb id x)) (DocumentStore.toggled l x)
  = filter (fun id => negb (String.eqb id x)) l
  /\ (forall y,
        includes (DocumentStore.toggled (DocumentStore.toggled l x) x) y
        = includes l y)
  /\ (includes l x = false ->
      DocumentStore.toggled (DocumentStore.toggled l x) x = l).
Proof.
  split; [apply filter_out_other|]. split.
  - intros y. destruct (String.eqb_spec y x) as [->|Hyx].
    + rewrite !includes_toggled_same. apply negb_involutive.
    + rewrite !includes_toggled_other; congruence.
  - intros Hx. unfold DocumentStore.toggled at 2. rewrite Hx.
    unfold DocumentStore.toggled.
    rewrite includes_app, Hx. simpl. rewrite String.eqb_refl. simpl.
    rewrite filter_app. simpl. rewrite String.eqb_refl. simpl.
    rewrite app_nil_r. now apply filter_out_absent.
Qed.

(** ** The stores side by side *)

Ltac app_unfold :=
  unfold App.call, App.answered_401, App.data_failure, App.is_data_call,
    App.sends_request in *;
  chat_unfold; docs_unfold.

Lemma data_call_leaves_auth (app : App.t) (c : App.Call) :
  App.is_data_call c = true ->
  let app' := App.call app c in
  App.auth app' = App.auth app
  /\ Api.auth_storage (App.gateway app') = Api.auth_storage (App.gateway app)
  /\ (Api.access_token (App.gateway app')
      = Api.access_token (App.gateway app)
      \/ Api.access_token (App.gateway app') = None)
  /\ (App.answered_401 c = false ->
      Api.access_token (App.gateway app')
      = Api.access_token (App.gateway app)
      /\ Api.href (App.gateway app') = Api.href (App.gateway app)).
Proof.
  intros Hd.
  destruct c as [c|c|c]; [discriminate Hd| |].
  - destruct c as [reply|chatId reply|title reply|chatId reply
                  |query documentIds a reply];
      app_unfold; simpl;
      try destruct (ChatStore.currentChat (App.chat app));
      destruct reply as [d|err]; simpl;
      try (destruct (Api.is_unauthorized err) eqn:E); simpl;
      repeat split; auto; try discriminate.
  - destruct c as [documentId|category reply|file title description category
                     reply|documentId reply];
      app_unfold; simpl;
      try (destruct reply as [d|err]; simpl;
           try (destruct (Api.is_unauthorized err) eqn:E); simpl);
      repeat split; auto; try discriminate.
Qed.

(** The Chat and Document stores never reach into the session: whatever
    calls of theirs are made, with whatever answers, the Auth store and
    the stored user are untouched, the token in storage is the one of
    before or gone (never a new one), and as long as no answer is a 401
    the token and the location are exactly as before. *)
Theorem data_calls_leave_session (cs : list App.Call) :
  forall app : App.t,
    forallb App.is_data_call cs = true ->
    let app' := App.calls app cs in
    App.auth app' = App.auth app
    /\ Api.auth_storage (App.gateway app')
       = Api.auth_storage (App.gateway app)
    /\ (Api.access_token (App.gateway app')
        = Api.access_token (App.gateway app)
        \/ Api.access_token (App.gateway app') = None)
    /\ (existsb App.answered_401 cs = false ->
        Api.access_token (App.gateway app')
        = Api.access_token (App.gateway app)
        /\ Api.href (App.gateway app') = Api.href (App.gateway app)).
Proof.
  induction cs as [|c cs IH]; intros app Hall.
  - simpl. auto.
  - simpl in Hall. apply andb_true_iff in Hall. destruct Hall as (Hc & Hcs).
    destruct (data_call_leaves_auth app c Hc) as (Ha & Hs & Ht & Hk).
    destruct (IH (App.call app c) Hcs) as (Ha' & Hs' & Ht' & Hk').
    cbv zeta in *.
    change (App.calls app (c :: cs)) with (App.calls (App.call app c) cs).
    split; [congruence|]. split; [congruence|]. split.
    + destruct Ht' as [Ht'|Ht']; [rewrite Ht'; exact Ht | now right].
    + simpl. intros H. apply orb_false_iff in H. destruct H as (H1 & H2).
      destruct (Hk H1) as (Hk1 & Hk2). destruct (Hk' H2) as (Hk3 & Hk4).
      split; congruence.
Qed.

Lemma data_calls_leave_session_witness :
  App.auth
    (App.calls (App.startup (Some "t0k3n") (Some (Some Sample.alice)) "/")
       [App.OfChat (ChatCalls.FetchChats (Err Sample.unauthorized));
        App.OfDocs (DocumentCalls.Toggle "d1")])
  = Auth.rehydrate (Some (Some Sample.alice)).
Proof.
  destruct (data_calls_leave_session
              [App.OfChat (ChatCalls.FetchChats (Err Sample.unauthorized));
               App.OfDocs (DocumentCalls.Toggle "d1")]
              (App.startup (Some "t0k3n") (Some (Some Sample.alice)) "/")
              eq_refl) as (Ha & _).
  exact Ha.
Defined.

(** A 401 to any request of the Chat or Document store ends the session
    at the gateway but not in the Auth store: the token is cleared and the
    location is the login page, while [user] and [isAuthenticated] stay as
    they were. The next [fetchCurrentUser] then makes the store anonymous
    without asking the server. *)
Theorem unauthorized_ends_session
    (app : App.t) (c : App.Call) (reply_me : Reply User.t) :
  App.sends_request app c = true ->
  App.answered_401 c = true ->
  let app1 := App.call app c in
  let app2 :=
    App.call app1 (App.OfAuth (AuthCalls.FetchCurrentUser reply_me)) in
  Api.access_token (App.gateway app1) = None
  /\ Api.href (App.gateway app1) = "/login"
  /\ App.auth app1 = App.auth app
  /\ Auth.user (App.auth app2) = None
  /\ Auth.isAuthenticated (App.auth app2) = false
  /\ Api.log (App.gateway app2) = Api.log (App.gateway app1).
Proof.
  intros Hs H401.
  destruct c as [c|c|c]; [discriminate Hs| |].
  - destruct c as [reply|chatId reply|title reply|chatId reply
                  |query documentIds a reply];
      app_unfold; simpl in *;
      try (destruct (ChatStore.currentChat (App.chat app));
           [|discriminate Hs]);
      (destruct reply as [d|err]; [discriminate H401|]); simpl in *;
      rewrite H401; simpl; repeat split.
  - destruct c as [documentId|category reply|file title description category
                     reply|documentId reply];
      [discriminate Hs|..];
      app_unfold; simpl in *;
      (destruct reply as [d|err]; [discriminate H401|]); simpl in *;
      rewrite H401; simpl; repeat split.
Qed.

Lemma unauthorized_ends_session_witness :
  let app :=
    App.call (App.startup (Some "t0k3n") None "/")
      (App.OfAuth (AuthCalls.FetchCurrentUser (Ok Sample.alice))) in
  let app1 :=
    App.call app (App.OfChat (ChatCalls.FetchChats (Err Sample.unauthorized)))
  in
  Auth.isAuthenticated (App.auth app1) = true
  /\ Api.access_token (App.gateway app1) = None.
Proof.
  destruct (unauthorized_ends_session
              (App.call (App.startup (Some "t0k3n") None "/")
                 (App.OfAuth (AuthCalls.FetchCurrentUser (Ok Sample.alice))))
              (App.OfChat (ChatCalls.FetchChats (Err Sample.unauthorized)))
              (Ok Sample.alice) eq_refl eq_refl) as (Ht & _ & Ha & _).
  split; [|exact Ht].
  cbv zeta. rewrite Ha. reflexivity.
Defined.
